(** * WebCore/layout/FormattingContext.cpp: out-of-flow geometry, traversal
      and coordinate mapping

    A shallow embedding of [FormattingContext.cpp].  Boxes of the layout tree
    are handles (the C++ code compares them by address); the layout pass
    state [LayoutContext] owns one [Display.Box] per layout box in a hash
    map; the member functions of [FormattingContext] become computations in
    a state monad over [LayoutContext] whose outcome also records the three
    ways a run can stop early: a failed [ASSERT] in a debug build, a null
    pointer that is dereferenced, and the recursion budget of the model.

    Only the assertions written in FormattingContext.cpp are modelled; the
    ones inside the accessors of [Display::Box] are not. *)

From Stdlib Require Import ZArith List Lia Bool.
From stdpp Require Import base option gmap fin_maps list.

(** ** Numbers and points *)

(** [LayoutUnit] is a fixed-point number kept as a raw integer; its header is
    not part of this file.  [operator<] and [operator>] compare raw values,
    which is the order of [Z]. *)
Definition LayoutUnit : Type := Z.
Bind Scope Z_scope with LayoutUnit.

(** [operator+] of [LayoutUnit] lives in LayoutUnit.h; the development takes
    it as a parameter and relies on none of its properties. *)
Class LayoutUnitOps := layoutUnitPlus : LayoutUnit → LayoutUnit → LayoutUnit.

Module LayoutPoint.
Record t : Type := mk { x : LayoutUnit; y : LayoutUnit }.

(** [void moveBy(const LayoutPoint& offset) { m_x += offset.x(); m_y += offset.y(); }] *)
Definition moveBy `{LayoutUnitOps} (p offset : t) : t :=
  mk (layoutUnitPlus (x p) (x offset)) (layoutUnitPlus (y p) (y offset)).
End LayoutPoint.

(** [using Position = LayoutPoint]. *)
Abbreviation Position := LayoutPoint.t.

(** ** Display::Box, the geometry record of one layout box *)

Module HorizontalEdges.
Record t : Type := mk { left : LayoutUnit; right : LayoutUnit }.
End HorizontalEdges.

Module VerticalEdges.
Record t : Type := mk { top : LayoutUnit; bottom : LayoutUnit }.
End VerticalEdges.

Module Edges.
Record t : Type := mk { horizontal : HorizontalEdges.t; vertical : VerticalEdges.t }.
End Edges.

Module Display.
(** Modelled from the spec: [Display::Box] is declared in DisplayBox.h.  One
    field per setter called in FormattingContext.cpp: top-left position,
    content-box width and height, the margins and their "non-computed" and
    "non-collapsed" records, border, and padding (optional). *)
Record Box : Type := mkBox {
  topLeft : LayoutPoint.t;
  contentBoxWidth : LayoutUnit;
  contentBoxHeight : LayoutUnit;
  horizontalMargin : HorizontalEdges.t;
  verticalMargin : VerticalEdges.t;
  horizontalNonComputedMargin : HorizontalEdges.t;
  verticalNonCollapsedMargin : VerticalEdges.t;
  border : Edges.t;
  padding : option Edges.t
}.

Definition left (b : Box) : LayoutUnit := LayoutPoint.x (topLeft b).
Definition top (b : Box) : LayoutUnit := LayoutPoint.y (topLeft b).

Definition setTopLeft (p : LayoutPoint.t) (b : Box) : Box :=
  mkBox p (contentBoxWidth b) (contentBoxHeight b) (horizontalMargin b)
    (verticalMargin b) (horizontalNonComputedMargin b)
    (verticalNonCollapsedMargin b) (border b) (padding b).

Definition setLeft (v : LayoutUnit) (b : Box) : Box :=
  setTopLeft (LayoutPoint.mk v (top b)) b.

Definition setTop (v : LayoutUnit) (b : Box) : Box :=
  setTopLeft (LayoutPoint.mk (left b) v) b.

Definition setContentBoxWidth (v : LayoutUnit) (b : Box) : Box :=
  mkBox (topLeft b) v (contentBoxHeight b) (horizontalMargin b)
    (verticalMargin b) (horizontalNonComputedMargin b)
    (verticalNonCollapsedMargin b) (border b) (padding b).

Definition setContentBoxHeight (v : LayoutUnit) (b : Box) : Box :=
  mkBox (topLeft b) (contentBoxWidth b) v (horizontalMargin b)
    (verticalMargin b) (horizontalNonComputedMargin b)
    (verticalNonCollapsedMargin b) (border b) (padding b).

Definition setHorizontalMargin (v : HorizontalEdges.t) (b : Box) : Box :=
  mkBox (topLeft b) (contentBoxWidth b) (contentBoxHeight b) v
    (verticalMargin b) (horizontalNonComputedMargin b)
    (verticalNonCollapsedMargin b) (border b) (padding b).

Definition setVerticalMargin (v : VerticalEdges.t) (b : Box) : Box :=
  mkBox (topLeft b) (contentBoxWidth b) (contentBoxHeight b)
    (horizontalMargin b) v (horizontalNonComputedMargin b)
    (verticalNonCollapsedMargin b) (border b) (padding b).

Definition setHorizontalNonComputedMargin (v : HorizontalEdges.t) (b : Box) : Box :=
  mkBox (topLeft b) (contentBoxWidth b) (contentBoxHeight b)
    (horizontalMargin b) (verticalMargin b) v
    (verticalNonCollapsedMargin b) (border b) (padding b).

Definition setVerticalNonCollapsedMargin (v : VerticalEdges.t) (b : Box) : Box :=
  mkBox (topLeft b) (contentBoxWidth b) (contentBoxHeight b)
    (horizontalMargin b) (verticalMargin b) (horizontalNonComputedMargin b)
    v (border b) (padding b).

Definition setBorder (v : Edges.t) (b : Box) : Box :=
  mkBox (topLeft b) (contentBoxWidth b) (contentBoxHeight b)
    (horizontalMargin b) (verticalMargin b) (horizontalNonComputedMargin b)
    (verticalNonCollapsedMargin b) v (padding b).

Definition setPadding (v : option Edges.t) (b : Box) : Box :=
  mkBox (topLeft b) (contentBoxWidth b) (contentBoxHeight b)
    (horizontalMargin b) (verticalMargin b) (horizontalNonComputedMargin b)
    (verticalNonCollapsedMargin b) (border b) v.
End Display.

(** ** Candidate solutions returned by the Geometry collaborator *)

Module WidthAndMargin.
Record t : Type := mk {
  width : LayoutUnit;
  margin : HorizontalEdges.t;
  nonComputedMargin : HorizontalEdges.t
}.
End WidthAndMargin.

Module HeightAndMargin.
Record t : Type := mk {
  height : LayoutUnit;
  margin : VerticalEdges.t;
  collapsedMargin : option VerticalEdges.t
}.
End HeightAndMargin.

Module HorizontalGeometry.
Record t : Type := mk {
  left : LayoutUnit;
  right : LayoutUnit;
  widthAndMargin : WidthAndMargin.t
}.
End HorizontalGeometry.

Module VerticalGeometry.
Record t : Type := mk {
  top : LayoutUnit;
  bottom : LayoutUnit;
  heightAndMargin : HeightAndMargin.t
}.
End VerticalGeometry.

(** ** The layout tree *)

(** A [const Box&] or [const Container*]: the identity of a node. *)
Definition BoxId : Type := positive.

(** Tree queries of LayoutBox.h and LayoutContainer.h used by this file.  The
    tree is built elsewhere and only read here. *)
Class BoxTree : Type := {
  (** the type of a computed CSS length ([Length]) *)
  Length : Type;
  (** [Box::containingBlock()], null for a box without one *)
  containingBlock : BoxId → option BoxId;
  isPositioned : BoxId → bool;
  isInitialContainingBlock : BoxId → bool;
  (** [is<Container>(box)] *)
  isContainer : BoxId → bool;
  (** [Container::hasChild()] *)
  hasChild : BoxId → bool;
  (** [Container::outOfFlowDescendants()], in insertion order *)
  outOfFlowDescendants : BoxId → list BoxId;
  establishesFormattingContext : BoxId → bool;
  (** [box.isDescendantOf(container)] *)
  isDescendantOf : BoxId → BoxId → bool;
  (** [box.style().logicalMaxWidth()], [box.style().logicalMinWidth()] *)
  logicalMaxWidth : BoxId → Length;
  logicalMinWidth : BoxId → Length
}.

(** ** The layout pass state *)

(** [LayoutContext]: the hash map from layout boxes to their display boxes,
    and the rest of the pass state (formatting states), which this file
    never inspects. *)
Record LayoutContext (FS : Type) : Type := mkLayoutContext {
  m_layoutToDisplayBox : gmap BoxId Display.Box;
  m_formattingStates : FS
}.
Arguments mkLayoutContext {FS} _ _.
Arguments m_layoutToDisplayBox {FS} _.
Arguments m_formattingStates {FS} _.

(** The root box a formatting context is bound to ([m_root]). *)
Record FormattingContext : Type := mkFormattingContext { m_root : BoxId }.

(** Collaborators declared outside this file: the static functions of
    [FormattingContext::Geometry], the construction of a fresh display box,
    and the layout entry point of a nested formatting context.

    Modelled from the spec: the Geometry functions are "pure functions
    computing candidate solutions" of a "stateless collaborator"; they read
    the pass state they are handed and leave it as it is. *)
Class Collaborators (T : BoxTree) (FS : Type) : Type := {
  outOfFlowHorizontalGeometry :
    LayoutContext FS → FormattingContext → BoxId → option LayoutUnit → HorizontalGeometry.t;
  outOfFlowVerticalGeometry :
    LayoutContext FS → BoxId → option LayoutUnit → VerticalGeometry.t;
  computedValueIfNotAuto : Length → LayoutUnit → option LayoutUnit;
  computedMaxHeight : LayoutContext FS → BoxId → option LayoutUnit;
  computedMinHeight : LayoutContext FS → BoxId → option LayoutUnit;
  computedBorder : LayoutContext FS → BoxId → Edges.t;
  computedPadding : LayoutContext FS → BoxId → option Edges.t;
  (** [std::make_unique<Display::Box>(layoutBox.style())] *)
  createDisplayBox : BoxId → Display.Box;
  (** what [layoutContext.formattingContext(box)] does to the pass state *)
  formattingContext : BoxId → LayoutContext FS → LayoutContext FS;
  (** [layoutContext.createFormattingStateForFormattingRootIfNeeded(box)] *)
  createFormattingStateForFormattingRootIfNeeded : BoxId → LayoutContext FS → LayoutContext FS;
  (** [formattingContext->layout(layoutContext, formattingState)] for the
      formatting context of [box]: it lays out the subtree of [box] *)
  formattingContextLayout : BoxId → LayoutContext FS → LayoutContext FS
}.

(** [ASSERT] is compiled in only when [NDEBUG] is not defined. *)
Class BuildConfiguration := assertionsEnabled : bool.

(** ** Outcomes and the monad of the pass *)

Inductive Outcome (A : Type) : Type :=
| Returns (a : A)
| AssertionFailed
| NullDereference
| OutOfFuel.
Arguments Returns {A} a.
Arguments AssertionFailed {A}.
Arguments NullDereference {A}.
Arguments OutOfFuel {A}.

(** A computation over a state [S]; the layout pass runs them over
    [LayoutContext FS]. *)
Definition M (S A : Type) : Type := S → Outcome (A * S).

Definition ret {S A} (a : A) : M S A := fun ctx => Returns (a, ctx).

Definition bind {S A B} (m : M S A) (k : A → M S B) : M S B :=
  fun ctx =>
    match m ctx with
    | Returns (a, ctx') => k a ctx'
    | AssertionFailed => AssertionFailed
    | NullDereference => NullDereference
    | OutOfFuel => OutOfFuel
    end.

Notation "'do' x <- m ; k" := (bind m (fun x => k))
  (at level 10, x name, m at level 100, k at level 200).
Notation "m ;; k" := (bind m (fun _ => k))
  (at level 100, k at level 200, right associativity).

Definition getContext {S} : M S S := fun ctx => Returns (ctx, ctx).

Definition stop {S A} (o : Outcome (A * S)) : M S A := fun _ => o.

(** [for (auto& x : xs) body(x);] *)
Fixpoint forEach {S A} (xs : list A) (body : A → M S unit) : M S unit :=
  match xs with
  | [] => ret tt
  | x :: rest => body x ;; forEach rest body
  end.

(** [f] applied to what a run returned. *)
Definition outcomeMap {A B} (f : A → B) (o : Outcome A) : Outcome B :=
  match o with
  | Returns a => Returns (f a)
  | AssertionFailed => AssertionFailed
  | NullDereference => NullDereference
  | OutOfFuel => OutOfFuel
  end.

(** ** The member functions of FormattingContext *)

Section FormattingContext.
Context {LU : LayoutUnitOps} {T : BoxTree} {FS : Type}
        {G : Collaborators T FS} {Build : BuildConfiguration}.

Local Abbreviation Pass := (M (LayoutContext FS)).

(** [ASSERT(cond)]: stops a debug build when [cond] is false and is
    compiled out otherwise. *)
Definition ASSERT (cond : bool) : Pass unit :=
  fun ctx =>
    if assertionsEnabled && negb cond then AssertionFailed else Returns (tt, ctx).

Definition ASSERT_NOT_REACHED : Pass unit := ASSERT false.

(** Dereferencing a pointer that may be null. *)
Definition deref {A} (pointer : option A) : Pass A :=
  match pointer with
  | Some a => ret a
  | None => stop NullDereference
  end.

(** Modelled from the spec: [LayoutContext::displayBoxForLayoutBox] is
    defined in LayoutContext.cpp; a box's record is "created lazily on
    first access" and there is "exactly one ComputedBox per Box". *)
Definition displayBoxForLayoutBox (layoutBox : BoxId) : Pass Display.Box :=
  fun ctx =>
    match m_layoutToDisplayBox ctx !! layoutBox with
    | Some displayBox => Returns (displayBox, ctx)
    | None =>
        let displayBox := createDisplayBox layoutBox in
        Returns (displayBox,
                 mkLayoutContext (<[layoutBox := displayBox]> (m_layoutToDisplayBox ctx))
                                 (m_formattingStates ctx))
    end.

(** A setter called through the reference [auto& displayBox] obtained for
    [layoutBox]: the record held by the map changes in place. *)
Definition updateDisplayBox (layoutBox : BoxId) (setter : Display.Box → Display.Box)
  : Pass unit :=
  fun ctx =>
    Returns (tt, mkLayoutContext (alter setter layoutBox (m_layoutToDisplayBox ctx))
                                 (m_formattingStates ctx)).

(** A read through that reference. *)
Definition readDisplayBox (layoutBox : BoxId) : Pass Display.Box :=
  fun ctx =>
    match m_layoutToDisplayBox ctx !! layoutBox with
    | Some displayBox => Returns (displayBox, ctx)
    | None => NullDereference
    end.

(** [FormattingContext::computeOutOfFlowHorizontalGeometry] *)
Definition computeOutOfFlowHorizontalGeometry (this : FormattingContext) (layoutBox : BoxId)
  : Pass unit :=
  let compute (usedWidth : option LayoutUnit) : Pass HorizontalGeometry.t :=
    do layoutContext <- getContext;
    ret (outOfFlowHorizontalGeometry layoutContext this layoutBox usedWidth) in
  let width g := WidthAndMargin.width (HorizontalGeometry.widthAndMargin g) in
  do horizontalGeometry <- compute None;
  do containingBlock <- deref (containingBlock layoutBox);
  do containingBlockDisplayBox <- displayBoxForLayoutBox containingBlock;
  let containingBlockWidth := Display.contentBoxWidth containingBlockDisplayBox in
  do horizontalGeometry <-
    match computedValueIfNotAuto (logicalMaxWidth layoutBox) containingBlockWidth with
    | Some maxWidth =>
        do maxHorizontalGeometry <- compute (Some maxWidth);
        if (width horizontalGeometry >? width maxHorizontalGeometry)%Z
        then ret maxHorizontalGeometry
        else ret horizontalGeometry
    | None => ret horizontalGeometry
    end;
  do horizontalGeometry <-
    match computedValueIfNotAuto (logicalMinWidth layoutBox) containingBlockWidth with
    | Some minWidth =>
        do minHorizontalGeometry <- compute (Some minWidth);
        if (width horizontalGeometry <? width minHorizontalGeometry)%Z
        then ret minHorizontalGeometry
        else ret horizontalGeometry
    | None => ret horizontalGeometry
    end;
  let widthAndMargin := HorizontalGeometry.widthAndMargin horizontalGeometry in
  displayBoxForLayoutBox layoutBox ;;
  updateDisplayBox layoutBox
    (Display.setLeft
       (layoutUnitPlus (HorizontalGeometry.left horizontalGeometry)
                       (HorizontalEdges.left (WidthAndMargin.margin widthAndMargin)))) ;;
  updateDisplayBox layoutBox
    (Display.setContentBoxWidth (WidthAndMargin.width widthAndMargin)) ;;
  updateDisplayBox layoutBox
    (Display.setHorizontalMargin (WidthAndMargin.margin widthAndMargin)) ;;
  updateDisplayBox layoutBox
    (Display.setHorizontalNonComputedMargin (WidthAndMargin.nonComputedMargin widthAndMargin)).

(** [FormattingContext::computeOutOfFlowVerticalGeometry] *)
Definition computeOutOfFlowVerticalGeometry (layoutBox : BoxId) : Pass unit :=
  let compute (usedHeight : option LayoutUnit) : Pass VerticalGeometry.t :=
    do layoutContext <- getContext;
    ret (outOfFlowVerticalGeometry layoutContext layoutBox usedHeight) in
  let height g := HeightAndMargin.height (VerticalGeometry.heightAndMargin g) in
  do verticalGeometry <- compute None;
  do layoutContext <- getContext;
  do verticalGeometry <-
    match computedMaxHeight layoutContext layoutBox with
    | Some maxHeight =>
        do maxVerticalGeometry <- compute (Some maxHeight);
        if (height verticalGeometry >? height maxVerticalGeometry)%Z
        then ret maxVerticalGeometry
        else ret verticalGeometry
    | None => ret verticalGeometry
    end;
  do layoutContext <- getContext;
  do verticalGeometry <-
    match computedMinHeight layoutContext layoutBox with
    | Some minHeight =>
        do minVerticalGeometry <- compute (Some minHeight);
        if (height verticalGeometry <? height minVerticalGeometry)%Z
        then ret minVerticalGeometry
        else ret verticalGeometry
    | None => ret verticalGeometry
    end;
  let heightAndMargin := VerticalGeometry.heightAndMargin verticalGeometry in
  displayBoxForLayoutBox layoutBox ;;
  updateDisplayBox layoutBox
    (Display.setTop
       (layoutUnitPlus (VerticalGeometry.top verticalGeometry)
                       (VerticalEdges.top (HeightAndMargin.margin heightAndMargin)))) ;;
  updateDisplayBox layoutBox
    (Display.setContentBoxHeight (HeightAndMargin.height heightAndMargin)) ;;
  ASSERT (negb (bool_decide (is_Some (HeightAndMargin.collapsedMargin heightAndMargin)))) ;;
  updateDisplayBox layoutBox
    (Display.setVerticalMargin (HeightAndMargin.margin heightAndMargin)) ;;
  updateDisplayBox layoutBox
    (Display.setVerticalNonCollapsedMargin (HeightAndMargin.margin heightAndMargin)).

(** [FormattingContext::computeBorderAndPadding] *)
Definition computeBorderAndPadding (layoutBox : BoxId) : Pass unit :=
  displayBoxForLayoutBox layoutBox ;;
  do layoutContext <- getContext;
  updateDisplayBox layoutBox (Display.setBorder (computedBorder layoutContext layoutBox)) ;;
  do layoutContext <- getContext;
  updateDisplayBox layoutBox (Display.setPadding (computedPadding layoutContext layoutBox)).

(** A call into a collaborator that changes the pass state. *)
Definition collaborator (effect : LayoutContext FS → LayoutContext FS) : Pass unit :=
  fun ctx => Returns (tt, effect ctx).

(** [FormattingContext::layoutOutOfFlowDescendants].  The function calls
    itself on every out-of-flow box it lays out; [fuel] bounds the depth of
    that recursion and is spent only there. *)
Fixpoint layoutOutOfFlowDescendants (fuel : nat) (this : FormattingContext)
    (layoutBox : BoxId) {struct fuel} : Pass unit :=
  if negb (isPositioned layoutBox) && negb (isInitialContainingBlock layoutBox) then ret tt
  else if negb (isContainer layoutBox) then ret tt
  else if negb (hasChild layoutBox) then ret tt
  else
    forEach (outOfFlowDescendants layoutBox) (fun outOfFlowBox =>
      ASSERT (establishesFormattingContext outOfFlowBox) ;;
      collaborator (formattingContext outOfFlowBox) ;;
      computeBorderAndPadding outOfFlowBox ;;
      computeOutOfFlowHorizontalGeometry this outOfFlowBox ;;
      collaborator (createFormattingStateForFormattingRootIfNeeded outOfFlowBox) ;;
      collaborator (formattingContextLayout outOfFlowBox) ;;
      computeOutOfFlowVerticalGeometry outOfFlowBox ;;
      match fuel with
      | O => stop OutOfFuel
      | S fuel' => layoutOutOfFlowDescendants fuel' this outOfFlowBox
      end).

(** The loop shared by the two mapping functions:
    while the pointer [c] is neither null nor the ancestor, the position
    is moved by the top-left of the display box of [c], and [c] becomes
    [c->containingBlock()].  It returns the pointer the loop stopped at and
    the moved position; [fuel] bounds the number of iterations. *)
Fixpoint walkToAncestor (fuel : nat) (ancestor : BoxId) (container : option BoxId)
    (position : Position) {struct fuel} : Pass (option BoxId * Position) :=
  match container with
  | None => ret (None, position)
  | Some c =>
      if decide (c = ancestor) then ret (Some c, position)
      else
        match fuel with
        | O => stop OutOfFuel
        | S fuel' =>
            do displayBox <- displayBoxForLayoutBox c;
            walkToAncestor fuel' ancestor (containingBlock c)
              (LayoutPoint.moveBy position (Display.topLeft displayBox))
        end
  end.

(** [FormattingContext::mapBoxToAncestor] *)
Definition mapBoxToAncestor (fuel : nat) (layoutBox ancestor : BoxId) : Pass Display.Box :=
  ASSERT (isDescendantOf layoutBox ancestor) ;;
  do displayBox <- displayBoxForLayoutBox layoutBox;
  let topLeft := Display.topLeft displayBox in
  do stopped <- walkToAncestor fuel ancestor (containingBlock layoutBox) topLeft;
  match fst stopped with
  | None =>
      ASSERT_NOT_REACHED ;;
      do displayBox <- readDisplayBox layoutBox;
      ret displayBox
  | Some _ =>
      do displayBox <- readDisplayBox layoutBox;
      ret (Display.setTopLeft (snd stopped) displayBox)
  end.

(** [FormattingContext::mapCoordinateToAncestor] *)
Definition mapCoordinateToAncestor (fuel : nat) (position : Position)
    (containingBlock ancestor : BoxId) : Pass Position :=
  do stopped <- walkToAncestor fuel ancestor (Some containingBlock) position;
  match fst stopped with
  | None => ASSERT_NOT_REACHED ;; ret position
  | Some _ => ret (snd stopped)
  end.

(** [FormattingContext::mapTopLeftToAncestor] *)
Definition mapTopLeftToAncestor (fuel : nat) (layoutBox ancestor : BoxId) : Pass Position :=
  ASSERT (isDescendantOf layoutBox ancestor) ;;
  do displayBox <- displayBoxForLayoutBox layoutBox;
  do containingBlock <- deref (containingBlock layoutBox);
  mapCoordinateToAncestor fuel (Display.topLeft displayBox) containingBlock ancestor.

(** *** The traversal with a log of its steps

    The same function run over the pass state paired with a log: each of
    the four calls made for an out-of-flow box appends its label to the log
    at the moment it is made.  The log is not part of the program; it
    makes the order of the calls a value that theorems can speak about. *)

Inductive Step : Type :=
| BorderAndPadding (layoutBox : BoxId)
| HorizontalGeometryOf (layoutBox : BoxId)
| FormattingContextLayout (layoutBox : BoxId)
| VerticalGeometryOf (layoutBox : BoxId).

Local Abbreviation Logged := (M (LayoutContext FS * list Step)).

(** Runs [m] on the pass state and leaves the log alone. *)
Definition onContext {A} (m : Pass A) : Logged A :=
  fun s =>
    match m (fst s) with
    | Returns (a, ctx') => Returns (a, (ctx', snd s))
    | AssertionFailed => AssertionFailed
    | NullDereference => NullDereference
    | OutOfFuel => OutOfFuel
    end.

Definition emit (step : Step) : Logged unit :=
  fun s => Returns (tt, (fst s, snd s ++ [step])).

Fixpoint layoutOutOfFlowDescendantsLogged (fuel : nat) (this : FormattingContext)
    (layoutBox : BoxId) {struct fuel} : Logged unit :=
  if negb (isPositioned layoutBox) && negb (isInitialContainingBlock layoutBox) then ret tt
  else if negb (isContainer layoutBox) then ret tt
  else if negb (hasChild layoutBox) then ret tt
  else
    forEach (outOfFlowDescendants layoutBox) (fun outOfFlowBox =>
      onContext (ASSERT (establishesFormattingContext outOfFlowBox)) ;;
      onContext (collaborator (formattingContext outOfFlowBox)) ;;
      emit (BorderAndPadding outOfFlowBox) ;;
      onContext (computeBorderAndPadding outOfFlowBox) ;;
      emit (HorizontalGeometryOf outOfFlowBox) ;;
      onContext (computeOutOfFlowHorizontalGeometry this outOfFlowBox) ;;
      onContext (collaborator (createFormattingStateForFormattingRootIfNeeded outOfFlowBox)) ;;
      emit (FormattingContextLayout outOfFlowBox) ;;
      onContext (collaborator (formattingContextLayout outOfFlowBox)) ;;
      emit (VerticalGeometryOf outOfFlowBox) ;;
      onContext (computeOutOfFlowVerticalGeometry outOfFlowBox) ;;
      match fuel with
      | O => stop OutOfFuel
      | S fuel' => layoutOutOfFlowDescendantsLogged fuel' this outOfFlowBox
      end).

(** *** Vocabulary of the statements *)

(** The record [displayBoxForLayoutBox] hands out for [layoutBox] in the
    state [ctx]: the stored one, or the fresh one it would create. *)
Definition displayBoxOf (ctx : LayoutContext FS) (layoutBox : BoxId) : Display.Box :=
  default (createDisplayBox layoutBox) (m_layoutToDisplayBox ctx !! layoutBox).

(** The state [displayBoxForLayoutBox layoutBox] leaves behind. *)
Definition ensured (layoutBox : BoxId) (ctx : LayoutContext FS) : LayoutContext FS :=
  mkLayoutContext (<[layoutBox := displayBoxOf ctx layoutBox]> (m_layoutToDisplayBox ctx))
                  (m_formattingStates ctx).

Definition widthOf (g : HorizontalGeometry.t) : LayoutUnit :=
  WidthAndMargin.width (HorizontalGeometry.widthAndMargin g).

Definition heightOf (g : VerticalGeometry.t) : LayoutUnit :=
  HeightAndMargin.height (VerticalGeometry.heightAndMargin g).

(** The content-box width of the containing block [cb] as
    [computeOutOfFlowHorizontalGeometry] reads it. *)
Definition containingBlockWidthIn (ctx : LayoutContext FS) (cb : BoxId) : LayoutUnit :=
  Display.contentBoxWidth (displayBoxOf ctx cb).

(** The three candidate solutions of the horizontal resolver for a box
    whose containing block is [cb], started in [ctx]: the first call of
    [compute] sees [ctx], the later ones the state in which the display
    box of [cb] exists. *)
Definition unconstrainedSolution (this : FormattingContext) (layoutBox : BoxId)
    (ctx : LayoutContext FS) : HorizontalGeometry.t :=
  outOfFlowHorizontalGeometry ctx this layoutBox None.

Definition constrainedSolution (this : FormattingContext) (layoutBox cb : BoxId)
    (ctx : LayoutContext FS) (usedWidth : LayoutUnit) : HorizontalGeometry.t :=
  outOfFlowHorizontalGeometry (ensured cb ctx) this layoutBox (Some usedWidth).

(** The working solution after the max-width comparison. *)
Definition solutionAfterMax (this : FormattingContext) (layoutBox cb : BoxId)
    (ctx : LayoutContext FS) : HorizontalGeometry.t :=
  let unconstrained := unconstrainedSolution this layoutBox ctx in
  match computedValueIfNotAuto (logicalMaxWidth layoutBox) (containingBlockWidthIn ctx cb) with
  | Some maxWidth =>
      let constrained := constrainedSolution this layoutBox cb ctx maxWidth in
      if (widthOf unconstrained >? widthOf constrained)%Z then constrained else unconstrained
  | None => unconstrained
  end.

(** The working solution after the min-width comparison: the one whose
    components are written. *)
Definition selectedSolution (this : FormattingContext) (layoutBox cb : BoxId)
    (ctx : LayoutContext FS) : HorizontalGeometry.t :=
  let working := solutionAfterMax this layoutBox cb ctx in
  match computedValueIfNotAuto (logicalMinWidth layoutBox) (containingBlockWidthIn ctx cb) with
  | Some minWidth =>
      let constrained := constrainedSolution this layoutBox cb ctx minWidth in
      if (widthOf working <? widthOf constrained)%Z then constrained else working
  | None => working
  end.

(** The record of a box after the four setters of the horizontal resolver
    were called with the components of [g]. *)
Definition withHorizontalGeometry (g : HorizontalGeometry.t) (d : Display.Box)
  : Display.Box :=
  let widthAndMargin := HorizontalGeometry.widthAndMargin g in
  Display.setHorizontalNonComputedMargin (WidthAndMargin.nonComputedMargin widthAndMargin)
    (Display.setHorizontalMargin (WidthAndMargin.margin widthAndMargin)
       (Display.setContentBoxWidth (WidthAndMargin.width widthAndMargin)
          (Display.setLeft
             (layoutUnitPlus (HorizontalGeometry.left g)
                             (HorizontalEdges.left (WidthAndMargin.margin widthAndMargin)))
             d))).

(** The state in which the record of [layoutBox] is [d]. *)
Definition withDisplayBox (layoutBox : BoxId) (d : Display.Box) (ctx : LayoutContext FS)
  : LayoutContext FS :=
  mkLayoutContext (<[layoutBox := d]> (m_layoutToDisplayBox ctx)) (m_formattingStates ctx).

(** The vertical counterpart; every call sees the same state. *)
Definition selectedVerticalSolution (layoutBox : BoxId) (ctx : LayoutContext FS)
  : VerticalGeometry.t :=
  let unconstrained := outOfFlowVerticalGeometry ctx layoutBox None in
  let working :=
    match computedMaxHeight ctx layoutBox with
    | Some maxHeight =>
        let constrained := outOfFlowVerticalGeometry ctx layoutBox (Some maxHeight) in
        if (heightOf unconstrained >? heightOf constrained)%Z then constrained else unconstrained
    | None => unconstrained
    end in
  match computedMinHeight ctx layoutBox with
  | Some minHeight =>
      let constrained := outOfFlowVerticalGeometry ctx layoutBox (Some minHeight) in
      if (heightOf working <? heightOf constrained)%Z then constrained else working
  | None => working
  end.

(** The record of a box after the four setters of the vertical resolver. *)
Definition withVerticalGeometry (g : VerticalGeometry.t) (d : Display.Box) : Display.Box :=
  let heightAndMargin := VerticalGeometry.heightAndMargin g in
  Display.setVerticalNonCollapsedMargin (HeightAndMargin.margin heightAndMargin)
    (Display.setVerticalMargin (HeightAndMargin.margin heightAndMargin)
       (Display.setContentBoxHeight (HeightAndMargin.height heightAndMargin)
          (Display.setTop
             (layoutUnitPlus (VerticalGeometry.top g)
                             (VerticalEdges.top (HeightAndMargin.margin heightAndMargin)))
             d))).

(** The containing-block chain walked from the pointer [start] towards
    [ancestor]: [chain] lists the boxes passed, innermost first, and
    [stop] is where the walk ends, at [ancestor] or at null. *)
Inductive ContainingBlockChain (ancestor : BoxId)
  : option BoxId → list BoxId → option BoxId → Prop :=
| chain_null : ContainingBlockChain ancestor None [] None
| chain_ancestor : ContainingBlockChain ancestor (Some ancestor) [] (Some ancestor)
| chain_step c chain stop :
    c ≠ ancestor →
    ContainingBlockChain ancestor (containingBlock c) chain stop →
    ContainingBlockChain ancestor (Some c) (c :: chain) stop.

(** [position] moved by the top-left of the display box of every box of
    [chain], in that order. *)
Definition movedAlong (ctx : LayoutContext FS) (chain : list BoxId) (position : Position)
  : Position :=
  fold_left (fun p c => LayoutPoint.moveBy p (Display.topLeft (displayBoxOf ctx c)))
            chain position.

(** [ctx'] is [ctx] with, at most, records created for boxes that had none:
    every record of [ctx] is in [ctx'] as it was, every record of [ctx'] is
    the one [displayBoxForLayoutBox] hands out in [ctx], and the rest of the
    pass state is the same. *)
Definition OnlyCreatesRecords (ctx ctx' : LayoutContext FS) : Prop :=
  (∀ b d, m_layoutToDisplayBox ctx !! b = Some d → m_layoutToDisplayBox ctx' !! b = Some d)
  ∧ (∀ b d, m_layoutToDisplayBox ctx' !! b = Some d → d = displayBoxOf ctx b)
  ∧ m_formattingStates ctx' = m_formattingStates ctx.

(** The tree invariant behind the out-of-flow descendant sets: only a
    container that is positioned or the initial containing block, and that
    has a child, has out-of-flow descendants. *)
Definition OutOfFlowSetsWellFormed : Prop :=
  ∀ b, outOfFlowDescendants b ≠ [] →
       (isPositioned b = true ∨ isInitialContainingBlock b = true)
       ∧ isContainer b = true ∧ hasChild b = true.

(** The body of the loop of [layoutOutOfFlowDescendants] for one out-of-flow
    box, with the recursive call it ends in as a parameter; and the same
    for the logged traversal. *)
Definition layoutOutOfFlowBox (recurse : BoxId → M (LayoutContext FS) unit)
    (this : FormattingContext) (outOfFlowBox : BoxId) : M (LayoutContext FS) unit :=
  ASSERT (establishesFormattingContext outOfFlowBox) ;;
  collaborator (formattingContext outOfFlowBox) ;;
  computeBorderAndPadding outOfFlowBox ;;
  computeOutOfFlowHorizontalGeometry this outOfFlowBox ;;
  collaborator (createFormattingStateForFormattingRootIfNeeded outOfFlowBox) ;;
  collaborator (formattingContextLayout outOfFlowBox) ;;
  computeOutOfFlowVerticalGeometry outOfFlowBox ;;
  recurse outOfFlowBox.

Definition layoutOutOfFlowBoxLogged
    (recurse : BoxId → M (LayoutContext FS * list Step) unit)
    (this : FormattingContext) (outOfFlowBox : BoxId)
  : M (LayoutContext FS * list Step) unit :=
  onContext (ASSERT (establishesFormattingContext outOfFlowBox)) ;;
  onContext (collaborator (formattingContext outOfFlowBox)) ;;
  emit (BorderAndPadding outOfFlowBox) ;;
  onContext (computeBorderAndPadding outOfFlowBox) ;;
  emit (HorizontalGeometryOf outOfFlowBox) ;;
  onContext (computeOutOfFlowHorizontalGeometry this outOfFlowBox) ;;
  onContext (collaborator (createFormattingStateForFormattingRootIfNeeded outOfFlowBox)) ;;
  emit (FormattingContextLayout outOfFlowBox) ;;
  onContext (collaborator (formattingContextLayout outOfFlowBox)) ;;
  emit (VerticalGeometryOf outOfFlowBox) ;;
  onContext (computeOutOfFlowVerticalGeometry outOfFlowBox) ;;
  recurse outOfFlowBox.

(** Out-of-flow boxes nest at most [n] levels deep below [b]. *)
Fixpoint NestingAtMost (n : nat) (b : BoxId) : Prop :=
  match n with
  | O => outOfFlowDescendants b = []
  | S n' => ∀ d, d ∈ outOfFlowDescendants b → NestingAtMost n' d
  end.

(** The order of steps the spec asks of the traversal of [container]: its
    out-of-flow descendants in list order; for each, the four steps, then
    the whole traversal of that descendant, then the next sibling. *)
Inductive DepthFirstOrder : BoxId → list Step → Prop :=
| depthFirst_container container steps :
    DepthFirstSiblings (outOfFlowDescendants container) steps →
    DepthFirstOrder container steps
with DepthFirstSiblings : list BoxId → list Step → Prop :=
| depthFirst_done : DepthFirstSiblings [] []
| depthFirst_next d siblings inner later :
    DepthFirstOrder d inner →
    DepthFirstSiblings siblings later →
    DepthFirstSiblings (d :: siblings)
      ([BorderAndPadding d; HorizontalGeometryOf d; FormattingContextLayout d;
        VerticalGeometryOf d] ++ inner ++ later).

Scheme DepthFirstOrder_mutual := Minimality for DepthFirstOrder Sort Prop
  with DepthFirstSiblings_mutual := Minimality for DepthFirstSiblings Sort Prop.

End FormattingContext.

(** Addition without bounds, to read [movedAlong] as a sum. *)
Definition exactArithmetic : LayoutUnitOps := Z.add.

(** The sum of the coordinates [coordinate] of the top-lefts along [chain]. *)
Definition sumAlong {T : BoxTree} {FS : Type} {G : Collaborators T FS}
    (coordinate : LayoutPoint.t → LayoutUnit) (ctx : LayoutContext FS) (chain : list BoxId)
  : LayoutUnit :=
  foldr Z.add 0%Z (map (fun c => coordinate (Display.topLeft (displayBoxOf ctx c))) chain).

(** ** The rest of FormattingContext.cpp: in-flow positioned children and the
       validation of the box model after layout *)

Module DisplayAccessors.
(** Modelled from the spec: the getters of [Display::Box] that
    [validateGeometryConstraintsAfterLayout] calls are declared in
    DisplayBox.h.  Each returns the component of the field of the same
    name; a padding getter returns no value when the padding of the box is
    "indeterminate". *)
Definition marginLeft (b : Display.Box) : LayoutUnit :=
  HorizontalEdges.left (Display.horizontalMargin b).
Definition marginRight (b : Display.Box) : LayoutUnit :=
  HorizontalEdges.right (Display.horizontalMargin b).
Definition marginTop (b : Display.Box) : LayoutUnit :=
  VerticalEdges.top (Display.verticalMargin b).
Definition marginBottom (b : Display.Box) : LayoutUnit :=
  VerticalEdges.bottom (Display.verticalMargin b).
Definition borderLeft (b : Display.Box) : LayoutUnit :=
  HorizontalEdges.left (Edges.horizontal (Display.border b)).
Definition borderRight (b : Display.Box) : LayoutUnit :=
  HorizontalEdges.right (Edges.horizontal (Display.border b)).
Definition borderTop (b : Display.Box) : LayoutUnit :=
  VerticalEdges.top (Edges.vertical (Display.border b)).
Definition borderBottom (b : Display.Box) : LayoutUnit :=
  VerticalEdges.bottom (Edges.vertical (Display.border b)).
Definition paddingLeft (b : Display.Box) : option LayoutUnit :=
  (fun p => HorizontalEdges.left (Edges.horizontal p)) <$> Display.padding b.
Definition paddingRight (b : Display.Box) : option LayoutUnit :=
  (fun p => HorizontalEdges.right (Edges.horizontal p)) <$> Display.padding b.
Definition paddingTop (b : Display.Box) : option LayoutUnit :=
  (fun p => VerticalEdges.top (Edges.vertical p)) <$> Display.padding b.
Definition paddingBottom (b : Display.Box) : option LayoutUnit :=
  (fun p => VerticalEdges.bottom (Edges.vertical p)) <$> Display.padding b.
(** [std::optional<LayoutUnit>::value_or(0)] *)
Definition value_or_0 (v : option LayoutUnit) : LayoutUnit := default 0%Z v.
End DisplayAccessors.

(** The other tree queries of LayoutBox.h and LayoutContainer.h that
    [placeInFlowPositionedChildren] and
    [validateGeometryConstraintsAfterLayout] use. *)
Class TraversalQueries : Type := {
  (** [childrenOfType<Box>(container)], in iteration order *)
  children : BoxId → list BoxId;
  (** [descendantsOfType<Box>(container)], in iteration order *)
  descendants : BoxId → list BoxId;
  isInFlowPositioned : BoxId → bool;
  (** [box.formattingContextRoot()] *)
  formattingContextRoot : BoxId → BoxId;
  isBlockLevelBox : BoxId → bool;
  isOutOfFlowPositioned : BoxId → bool;
  (** whether [box.replaced()] is non-null *)
  replaced : BoxId → bool
}.

(** [computeInFlowPositionedPosition] is pure virtual in FormattingContext;
    the subclass in use supplies what it does to the pass state. *)
Class InFlowPositioning (FS : Type) :=
  computeInFlowPositionedPosition : BoxId → LayoutContext FS → LayoutContext FS.

Section Validation.
Context {LU : LayoutUnitOps} {T : BoxTree} {Q : TraversalQueries} {FS : Type}
        {G : Collaborators T FS} {P : InFlowPositioning FS}
        {Build : BuildConfiguration}.

Local Abbreviation Pass := (M (LayoutContext FS)).
Local Infix "⊕" := layoutUnitPlus (at level 50, left associativity).

(** [FormattingContext::placeInFlowPositionedChildren]; [root()] is the box
    [m_root] points to. *)
Definition placeInFlowPositionedChildren (this : FormattingContext) (container : BoxId)
  : Pass unit :=
  if establishesFormattingContext container && negb (bool_decide (container = m_root this))
  then ret tt
  else
    forEach (children container) (fun layoutBox =>
      if negb (isInFlowPositioned layoutBox) then ret tt
      else collaborator (computeInFlowPositionedPosition layoutBox)).

(** The left-hand sides of the two equalities asserted by the validator, as
    written there: a chain of [operator+] from left to right. *)
Definition horizontalExtent (displayBox : Display.Box) : LayoutUnit :=
  DisplayAccessors.marginLeft displayBox
  ⊕ DisplayAccessors.borderLeft displayBox
  ⊕ DisplayAccessors.value_or_0 (DisplayAccessors.paddingLeft displayBox)
  ⊕ Display.contentBoxWidth displayBox
  ⊕ DisplayAccessors.value_or_0 (DisplayAccessors.paddingRight displayBox)
  ⊕ DisplayAccessors.borderRight displayBox
  ⊕ DisplayAccessors.marginRight displayBox.

Definition verticalExtent (displayBox : Display.Box) : LayoutUnit :=
  Display.top displayBox
  ⊕ DisplayAccessors.marginTop displayBox
  ⊕ DisplayAccessors.borderTop displayBox
  ⊕ DisplayAccessors.value_or_0 (DisplayAccessors.paddingTop displayBox)
  ⊕ Display.contentBoxHeight displayBox
  ⊕ DisplayAccessors.value_or_0 (DisplayAccessors.paddingBottom displayBox)
  ⊕ DisplayAccessors.borderBottom displayBox
  ⊕ DisplayAccessors.marginBottom displayBox.

(** [FormattingContext::validateGeometryConstraintsAfterLayout], which
    exists in builds without [NDEBUG] only.  The two display boxes are
    references; they are read where the source reads them. *)
Definition validateGeometryConstraintsAfterLayout (this : FormattingContext) : Pass unit :=
  if negb (isContainer (m_root this)) then ret tt
  else
    forEach (descendants (m_root this)) (fun layoutBox =>
      if negb (bool_decide (formattingContextRoot layoutBox = m_root this)) then ret tt
      else
        do containingBlock <- deref (containingBlock layoutBox);
        displayBoxForLayoutBox containingBlock ;;
        displayBoxForLayoutBox layoutBox ;;
        (if (isBlockLevelBox layoutBox || isOutOfFlowPositioned layoutBox)
            && negb (replaced layoutBox)
         then
           do containingBlockDisplayBox <- readDisplayBox containingBlock;
           let containingBlockWidth := Display.contentBoxWidth containingBlockDisplayBox in
           do displayBox <- readDisplayBox layoutBox;
           ASSERT (horizontalExtent displayBox =? containingBlockWidth)%Z
         else ret tt) ;;
        (if isOutOfFlowPositioned layoutBox && negb (replaced layoutBox)
         then
           do containingBlockDisplayBox <- readDisplayBox containingBlock;
           let containingBlockHeight := Display.contentBoxHeight containingBlockDisplayBox in
           do displayBox <- readDisplayBox layoutBox;
           ASSERT (verticalExtent displayBox =? containingBlockHeight)%Z
         else ret tt)).

(** *** Vocabulary of the statements *)

(** The boxes the validator looks at: the descendants of the root that
    belong to the formatting context of the root. *)
Definition validated (this : FormattingContext) (b : BoxId) : Prop :=
  b ∈ descendants (m_root this) ∧ formattingContextRoot b = m_root this.

(** The boxes whose width, and whose height, the validator checks. *)
Definition widthIsChecked (b : BoxId) : bool :=
  (isBlockLevelBox b || isOutOfFlowPositioned b) && negb (replaced b).

Definition heightIsChecked (b : BoxId) : bool :=
  isOutOfFlowPositioned b && negb (replaced b).

(** The box has a containing block and its record in [ctx] satisfies the
    equalities that apply to it. *)
Definition BoxModelHolds (ctx : LayoutContext FS) (b : BoxId) : Prop :=
  ∃ cb,
    containingBlock b = Some cb
    ∧ (widthIsChecked b = true →
       horizontalExtent (displayBoxOf ctx b) = Display.contentBoxWidth (displayBoxOf ctx cb))
    ∧ (heightIsChecked b = true →
       verticalExtent (displayBoxOf ctx b) = Display.contentBoxHeight (displayBoxOf ctx cb)).

(** The body of the loop of the validator for one descendant of the root. *)
Definition validateBox (this : FormattingContext) (layoutBox : BoxId) : Pass unit :=
  if negb (bool_decide (formattingContextRoot layoutBox = m_root this)) then ret tt
  else
    do containingBlock <- deref (containingBlock layoutBox);
    displayBoxForLayoutBox containingBlock ;;
    displayBoxForLayoutBox layoutBox ;;
    (if (isBlockLevelBox layoutBox || isOutOfFlowPositioned layoutBox)
        && negb (replaced layoutBox)
     then
       do containingBlockDisplayBox <- readDisplayBox containingBlock;
       let containingBlockWidth := Display.contentBoxWidth containingBlockDisplayBox in
       do displayBox <- readDisplayBox layoutBox;
       ASSERT (horizontalExtent displayBox =? containingBlockWidth)%Z
     else ret tt) ;;
    (if isOutOfFlowPositioned layoutBox && negb (replaced layoutBox)
     then
       do containingBlockDisplayBox <- readDisplayBox containingBlock;
       let containingBlockHeight := Display.contentBoxHeight containingBlockDisplayBox in
       do displayBox <- readDisplayBox layoutBox;
       ASSERT (verticalExtent displayBox =? containingBlockHeight)%Z
     else ret tt).

(** The pass state after [computeInFlowPositionedPosition] ran for each box
    of [boxes] in turn. *)
Definition positionedInTurn (boxes : list BoxId) (ctx : LayoutContext FS) : LayoutContext FS :=
  fold_left (fun ctx b => computeInFlowPositionedPosition b ctx) boxes ctx.

End Validation.

Section Operations.
Context {LU : LayoutUnitOps} {T : BoxTree} {FS : Type}
        {G : Collaborators T FS} {Build : BuildConfiguration}.

(** What the loop body of [layoutOutOfFlowDescendants] does for an
    out-of-flow box under each step label, as the source has it:
    border and padding is lines 149 to 152 (the assertion, obtaining the
    formatting context of the box, [computeBorderAndPadding]); horizontal
    geometry is line 153; the layout of the formatting context is lines 155
    and 156 (creating its formatting state, then its [layout]); vertical
    geometry is line 158. *)
Definition runStep (this : FormattingContext) (step : Step) : M (LayoutContext FS) unit :=
  match step with
  | BorderAndPadding o =>
      ASSERT (establishesFormattingContext o) ;;
      collaborator (formattingContext o) ;;
      computeBorderAndPadding o
  | HorizontalGeometryOf o => computeOutOfFlowHorizontalGeometry this o
  | FormattingContextLayout o =>
      collaborator (createFormattingStateForFormattingRootIfNeeded o) ;;
      collaborator (formattingContextLayout o)
  | VerticalGeometryOf o => computeOutOfFlowVerticalGeometry o
  end.

End Operations.

(** ** A sample layout tree and sample collaborators

    Used to run the functions above on concrete input.

<<
    1  initial containing block, 800 wide
    ├─ 2  absolutely positioned, min-width 600, max-width 400
    │  ├─ 3  absolutely positioned
    │  │  ├─ 6  in flow
    │  │  └─ 8  absolutely positioned, not a container
    │  └─ 4  absolutely positioned, not a container
    └─ 5  absolutely positioned, max-width 400, right edge pinned
    7  a box outside the tree
>>
*)

Module Sample.

Inductive CSSLength : Type :=
| Auto
| Fixed (value : LayoutUnit).

(** Addition that saturates at the bounds of a 32-bit integer. *)
Definition saturatedAddition (a b : LayoutUnit) : LayoutUnit :=
  Z.max (-2147483648) (Z.min 2147483647 (a + b))%Z.

Definition arith : LayoutUnitOps := saturatedAddition.

Local Open Scope positive_scope.

Definition containingBlockOf (b : BoxId) : option BoxId :=
  match b with
  | 2 | 5 => Some 1
  | 3 | 4 => Some 2
  | 6 | 8 => Some 3
  | _ => None
  end.

Fixpoint reaches (fuel : nat) (c : option BoxId) (ancestor : BoxId) : bool :=
  match fuel, c with
  | S fuel', Some c' =>
      if decide (c' = ancestor) then true else reaches fuel' (containingBlockOf c') ancestor
  | _, _ => false
  end.

Definition outOfFlowOf (b : BoxId) : list BoxId :=
  if decide (b = 1) then [2; 5]
  else if decide (b = 2) then [3; 4]
  else if decide (b = 3) then [8]
  else [].

Definition among (bs : list BoxId) (b : BoxId) : bool := bool_decide (b ∈ bs).

Definition tree : BoxTree := {|
  Length := CSSLength;
  containingBlock := containingBlockOf;
  isPositioned := among [2; 3; 4; 5; 8];
  isInitialContainingBlock := among [1];
  isContainer := among [1; 2; 3; 5];
  hasChild := among [1; 2; 3];
  outOfFlowDescendants := outOfFlowOf;
  establishesFormattingContext := among [1; 2; 3; 4; 5; 8];
  isDescendantOf := fun b ancestor => reaches 8%nat (containingBlockOf b) ancestor;
  logicalMaxWidth := fun b => if among [2; 5] b then Fixed 400%Z else Auto;
  logicalMinWidth := fun b => if among [2] b then Fixed 600%Z else Auto
|}.

Local Close Scope positive_scope.
Local Open Scope Z_scope.

Definition noEdges : Edges.t :=
  Edges.mk (HorizontalEdges.mk 0 0) (VerticalEdges.mk 0 0).

Definition emptyBox : Display.Box :=
  Display.mkBox (LayoutPoint.mk 0 0) 0 0 (HorizontalEdges.mk 0 0) (VerticalEdges.mk 0 0)
    (HorizontalEdges.mk 0 0) (VerticalEdges.mk 0 0) noEdges None.

Definition boxAt (x y width height : LayoutUnit) : Display.Box :=
  Display.setContentBoxHeight height
    (Display.setContentBoxWidth width (Display.setTopLeft (LayoutPoint.mk x y) emptyBox)).

(** The width available to [b]: the stored content width of its containing
    block. *)
Definition availableWidth (ctx : LayoutContext nat) (b : BoxId) : LayoutUnit :=
  match containingBlockOf b with
  | Some cb =>
      match m_layoutToDisplayBox ctx !! cb with
      | Some d => Display.contentBoxWidth d
      | None => 0
      end
  | None => 0
  end.

(** A box that fills the available width unless a width is imposed, and
    whose right edge stays on the right edge of its containing block. *)
Definition horizontal (ctx : LayoutContext nat) (this : FormattingContext) (b : BoxId)
    (usedWidth : option LayoutUnit) : HorizontalGeometry.t :=
  let available := availableWidth ctx b in
  let width := default available usedWidth in
  HorizontalGeometry.mk (available - width) 0
    (WidthAndMargin.mk width (HorizontalEdges.mk 0 0) (HorizontalEdges.mk 0 0)).

Definition vertical (ctx : LayoutContext nat) (b : BoxId) (usedHeight : option LayoutUnit)
  : VerticalGeometry.t :=
  VerticalGeometry.mk 10 0
    (HeightAndMargin.mk (default 100 usedHeight) (VerticalEdges.mk 5 5) None).

(** The rest of the pass state counts the nested layouts that ran. *)
Definition geometry : Collaborators tree nat := {|
  outOfFlowHorizontalGeometry := horizontal;
  outOfFlowVerticalGeometry := vertical;
  computedValueIfNotAuto := fun (length : @Length tree) _ =>
    match length with Auto => None | Fixed v => Some v end;
  computedMaxHeight := fun _ _ => None;
  computedMinHeight := fun _ _ => None;
  computedBorder := fun _ _ => noEdges;
  computedPadding := fun _ _ => Some noEdges;
  createDisplayBox := fun _ => emptyBox;
  formattingContext := fun _ ctx => ctx;
  createFormattingStateForFormattingRootIfNeeded := fun _ ctx => ctx;
  formattingContextLayout := fun _ ctx =>
    mkLayoutContext (m_layoutToDisplayBox ctx) (S (m_formattingStates ctx))
|}.

Local Close Scope Z_scope.

Definition release : BuildConfiguration := false.
Definition debug : BuildConfiguration := true.

Definition this : FormattingContext := mkFormattingContext 1%positive.

(** Before the out-of-flow pass: only the initial containing block has its
    geometry. *)
Definition initialContext : LayoutContext nat :=
  mkLayoutContext {[ 1%positive := (boxAt 0 0 800 600)%Z ]} 0%nat.

(** After a pass: every box of the tree has a position. *)
Definition laidOutContext : LayoutContext nat :=
  mkLayoutContext
    (<[ 1%positive := (boxAt 0 0 800 600)%Z ]>
       (<[ 2%positive := (boxAt 10 20 600 100)%Z ]>
          (<[ 3%positive := (boxAt 1 2 50 50)%Z ]>
             {[ 6%positive := (boxAt 100 200 30 30)%Z ]})))
    0%nat.

(** The state a run ends in; the initial one if the run did not return. *)
Definition stateAfter {A} (o : Outcome (A * LayoutContext nat)) : LayoutContext nat :=
  match o with
  | Returns (_, ctx) => ctx
  | _ => initialContext
  end.

End Sample.

(** ** A second sample: a block formatting context with in-flow children

<<
    1  root of the formatting context, 800 wide and 600 high
    ├─ 2  block, in flow, relatively positioned
    ├─ 3  block, in flow
    ├─ 4  absolutely positioned, margins of 100 on both sides
    └─ 5  block, in flow, relatively positioned, root of a nested context
       └─ 6  block of the nested context, relatively positioned
>>
*)

Module SampleFlow.

Local Open Scope positive_scope.

Definition containingBlockOf (b : BoxId) : option BoxId :=
  match b with
  | 2 | 3 | 4 | 5 => Some 1
  | 6 => Some 5
  | _ => None
  end.

Definition tree : BoxTree := {|
  Length := unit;
  containingBlock := containingBlockOf;
  isPositioned := Sample.among [2; 4; 5; 6];
  isInitialContainingBlock := Sample.among [1];
  isContainer := Sample.among [1; 5];
  hasChild := Sample.among [1; 5];
  outOfFlowDescendants := fun b => if decide (b = 1) then [4] else [];
  establishesFormattingContext := Sample.among [1; 4; 5];
  isDescendantOf := fun b ancestor =>
    bool_decide (containingBlockOf b = Some ancestor)
    || bool_decide (b = 6 ∧ ancestor = 1);
  logicalMaxWidth := fun _ => tt;
  logicalMinWidth := fun _ => tt
|}.

Definition queries : TraversalQueries := {|
  children := fun b =>
    if decide (b = 1) then [2; 3; 4; 5] else if decide (b = 5) then [6] else [];
  descendants := fun b =>
    if decide (b = 1) then [2; 3; 4; 5; 6] else if decide (b = 5) then [6] else [];
  isInFlowPositioned := Sample.among [2; 5; 6];
  formattingContextRoot := fun b => if decide (b = 6) then 5 else 1;
  isBlockLevelBox := Sample.among [2; 3; 5; 6];
  isOutOfFlowPositioned := Sample.among [4];
  replaced := fun _ => false
|}.

Local Close Scope positive_scope.

Definition geometry : Collaborators tree nat := {|
  outOfFlowHorizontalGeometry := fun _ _ _ usedWidth =>
    HorizontalGeometry.mk 100 100
      (WidthAndMargin.mk (default 600%Z usedWidth)
         (HorizontalEdges.mk 100 100) (HorizontalEdges.mk 0 0));
  outOfFlowVerticalGeometry := fun _ _ usedHeight =>
    VerticalGeometry.mk 0 0
      (HeightAndMargin.mk (default 600%Z usedHeight) (VerticalEdges.mk 0 0) None);
  computedValueIfNotAuto := fun _ _ => None;
  computedMaxHeight := fun _ _ => None;
  computedMinHeight := fun _ _ => None;
  computedBorder := fun _ _ => Sample.noEdges;
  computedPadding := fun _ _ => Some Sample.noEdges;
  createDisplayBox := fun _ => Sample.emptyBox;
  formattingContext := fun _ ctx => ctx;
  createFormattingStateForFormattingRootIfNeeded := fun _ ctx => ctx;
  formattingContextLayout := fun _ ctx => ctx
|}.

(** A relative offset of 3 to the right and 4 down, applied to the stored
    top-left of the box. *)
Definition positioning : InFlowPositioning nat :=
  fun b ctx =>
    mkLayoutContext
      (alter (fun d => Display.setTopLeft
                         (LayoutPoint.moveBy (H := Sample.arith) (Display.topLeft d)
                            (LayoutPoint.mk 3 4)) d)
             b (m_layoutToDisplayBox ctx))
      (m_formattingStates ctx).

Definition this : FormattingContext := mkFormattingContext 1%positive.
Definition nested : FormattingContext := mkFormattingContext 5%positive.

(** Every box of the context of box 1 fills the width of box 1; the
    absolutely positioned box 4 also fills its height. *)
Definition balancedContext : LayoutContext nat :=
  mkLayoutContext
    (<[ 1%positive := (Sample.boxAt 0 0 800 600)%Z ]>
       (<[ 2%positive := (Sample.boxAt 0 0 800 100)%Z ]>
          (<[ 3%positive := (Sample.boxAt 0 100 800 50)%Z ]>
             (<[ 4%positive :=
                   Display.setHorizontalMargin (HorizontalEdges.mk 100 100)
                     (Sample.boxAt 100 0 600 600)%Z ]>
                (<[ 5%positive := (Sample.boxAt 0 150 800 50)%Z ]>
                   {[ 6%positive := (Sample.boxAt 0 0 300 50)%Z ]})))))
    0%nat.

(** The same with box 3 too narrow by 100. *)
Definition unbalancedContext : LayoutContext nat :=
  mkLayoutContext
    (<[ 3%positive := (Sample.boxAt 0 100 700 50)%Z ]> (m_layoutToDisplayBox balancedContext))
    0%nat.

End SampleFlow.

(** ** The first sample with a max-height and a min-height

    Box 2 has max-height 400 and min-height 600 and would be 800 high
    without them; the other boxes have neither. *)

Module SampleBounds.

Definition vertical (ctx : LayoutContext nat) (b : BoxId) (usedHeight : option LayoutUnit)
  : VerticalGeometry.t :=
  VerticalGeometry.mk 10 0
    (HeightAndMargin.mk (default 800%Z usedHeight) (VerticalEdges.mk 5 5) None).

Definition geometry : Collaborators Sample.tree nat := {|
  outOfFlowHorizontalGeometry := Sample.horizontal;
  outOfFlowVerticalGeometry := vertical;
  computedValueIfNotAuto := fun (length : @Length Sample.tree) _ =>
    match length with Sample.Auto => None | Sample.Fixed v => Some v end;
  computedMaxHeight := fun _ b => if decide (b = 2%positive) then Some 400%Z else None;
  computedMinHeight := fun _ b => if decide (b = 2%positive) then Some 600%Z else None;
  computedBorder := fun _ _ => Sample.noEdges;
  computedPadding := fun _ _ => Some Sample.noEdges;
  createDisplayBox := fun _ => Sample.emptyBox;
  formattingContext := fun _ ctx => ctx;
  createFormattingStateForFormattingRootIfNeeded := fun _ ctx => ctx;
  formattingContextLayout := fun _ ctx =>
    mkLayoutContext (m_layoutToDisplayBox ctx) (S (m_formattingStates ctx))
|}.

End SampleBounds.

(** * Properties *)

Section Properties.
Context {LU : LayoutUnitOps} {T : BoxTree} {FS : Type}
        {G : Collaborators T FS} {Build : BuildConfiguration}.
Implicit Types (ctx : LayoutContext FS) (b cb : BoxId) (d : Display.Box).

(** ** The display-box map *)

Lemma displayBoxForLayoutBox_ensures b ctx :
  displayBoxForLayoutBox b ctx = Returns (displayBoxOf ctx b, ensured b ctx).
Proof.
  unfold displayBoxForLayoutBox, ensured, displayBoxOf.
  destruct ctx as [boxes fs]; simpl.
  destruct (boxes !! b) as [d|] eqn:Hb; simpl; [|reflexivity].
  by rewrite insert_id.
Qed.

Lemma lookup_ensured b ctx :
  m_layoutToDisplayBox (ensured b ctx) !! b = Some (displayBoxOf ctx b).
Proof. apply lookup_insert_eq. Qed.

Lemma lookup_ensured_stored b b' ctx d :
  m_layoutToDisplayBox ctx !! b' = Some d →
  m_layoutToDisplayBox (ensured b ctx) !! b' = Some d.
Proof.
  intros Hd. unfold ensured, displayBoxOf; simpl.
  destruct (decide (b = b')) as [->|Hne].
  - by rewrite lookup_insert_eq, Hd.
  - by rewrite lookup_insert_ne.
Qed.

Lemma displayBoxOf_ensured b b' ctx :
  displayBoxOf (ensured b ctx) b' = displayBoxOf ctx b'.
Proof.
  unfold displayBoxOf at 1.
  destruct (decide (b = b')) as [->|Hne].
  - by rewrite lookup_ensured.
  - unfold ensured; simpl. by rewrite lookup_insert_ne.
Qed.

Lemma formattingStates_ensured b ctx :
  m_formattingStates (ensured b ctx) = m_formattingStates ctx.
Proof. reflexivity. Qed.

Lemma updateDisplayBox_withDisplayBox b d (setter : Display.Box → Display.Box) ctx :
  updateDisplayBox b setter (withDisplayBox b d ctx)
  = Returns (tt, withDisplayBox b (setter d) ctx).
Proof.
  unfold updateDisplayBox, withDisplayBox; simpl.
  by rewrite alter_insert_eq.
Qed.

Lemma ensured_withDisplayBox b ctx : ensured b ctx = withDisplayBox b (displayBoxOf ctx b) ctx.
Proof. reflexivity. Qed.

(** ** The horizontal resolver *)

(** What a run of the resolver amounts to: the selected solution is stored
    in the record of the box, in the state in which the records of the
    containing block and of the box exist. *)
Lemma computeOutOfFlowHorizontalGeometry_returns this b cb ctx :
  containingBlock b = Some cb →
  computeOutOfFlowHorizontalGeometry this b ctx
  = Returns (tt, withDisplayBox b
                   (withHorizontalGeometry (selectedSolution this b cb ctx)
                      (displayBoxOf ctx b))
                   (ensured cb ctx)).
Proof.
  intros Hcb.
  unfold computeOutOfFlowHorizontalGeometry, selectedSolution, solutionAfterMax,
    unconstrainedSolution, constrainedSolution, containingBlockWidthIn, widthOf.
  cbv [bind ret getContext deref stop]. rewrite Hcb. cbv beta iota.
  rewrite displayBoxForLayoutBox_ensures. cbv beta iota.
  set (cbw := Display.contentBoxWidth (displayBoxOf ctx cb)).
  destruct (computedValueIfNotAuto (logicalMaxWidth b) cbw) as [maxWidth|];
    destruct (computedValueIfNotAuto (logicalMinWidth b) cbw) as [minWidth|];
    cbv beta iota zeta;
    repeat match goal with
      | |- context [if ?c then _ else _] => destruct c; cbv beta iota zeta
      end;
    rewrite (displayBoxForLayoutBox_ensures b (ensured cb ctx));
    cbv beta iota; rewrite (ensured_withDisplayBox b (ensured cb ctx));
    rewrite !updateDisplayBox_withDisplayBox; cbv beta iota;
    by rewrite displayBoxOf_ensured.
Qed.

Lemma lookup_withDisplayBox b d ctx :
  m_layoutToDisplayBox (withDisplayBox b d ctx) !! b = Some d.
Proof. apply lookup_insert_eq. Qed.

(** C1. When max-width and min-width both resolve and the min-constrained
    solution is wider than the max-constrained one, the resolver returns and
    the content-box width it stores for the box is the width of the
    min-constrained solution. *)
Theorem min_width_dominates_max_width this b cb ctx maxWidth minWidth :
  containingBlock b = Some cb →
  computedValueIfNotAuto (logicalMaxWidth b) (containingBlockWidthIn ctx cb) = Some maxWidth →
  computedValueIfNotAuto (logicalMinWidth b) (containingBlockWidthIn ctx cb) = Some minWidth →
  (widthOf (constrainedSolution this b cb ctx minWidth)
   > widthOf (constrainedSolution this b cb ctx maxWidth))%Z →
  ∃ ctx' d,
    computeOutOfFlowHorizontalGeometry this b ctx = Returns (tt, ctx')
    ∧ m_layoutToDisplayBox ctx' !! b = Some d
    ∧ Display.contentBoxWidth d = widthOf (constrainedSolution this b cb ctx minWidth).
Proof.
  intros Hcb Hmax Hmin Hwider.
  eexists _, _. split; [by apply computeOutOfFlowHorizontalGeometry_returns|].
  split; [apply lookup_withDisplayBox|].
  unfold withHorizontalGeometry; simpl.
  unfold selectedSolution, solutionAfterMax. rewrite Hmax, Hmin.
  fold (widthOf (constrainedSolution this b cb ctx minWidth)).
  destruct (widthOf (unconstrainedSolution this b ctx)
            >? widthOf (constrainedSolution this b cb ctx maxWidth))%Z eqn:Hcmp;
    match goal with
    | |- context [(?l <? ?r)%Z] => destruct (Z.ltb_spec l r) as [Hlt|Hge]
    end; try reflexivity; lia.
Qed.

(** C2. When max-width resolves, the max-constrained solution is narrower
    than the unconstrained one and min-width is auto, the stored content-box
    width is the width of the max-constrained solution. *)
Theorem max_width_applies_without_min_width this b cb ctx maxWidth :
  containingBlock b = Some cb →
  computedValueIfNotAuto (logicalMaxWidth b) (containingBlockWidthIn ctx cb) = Some maxWidth →
  computedValueIfNotAuto (logicalMinWidth b) (containingBlockWidthIn ctx cb) = None →
  (widthOf (constrainedSolution this b cb ctx maxWidth)
   < widthOf (unconstrainedSolution this b ctx))%Z →
  ∃ ctx' d,
    computeOutOfFlowHorizontalGeometry this b ctx = Returns (tt, ctx')
    ∧ m_layoutToDisplayBox ctx' !! b = Some d
    ∧ Display.contentBoxWidth d = widthOf (constrainedSolution this b cb ctx maxWidth).
Proof.
  intros Hcb Hmax Hmin Hnarrower.
  eexists _, _. split; [by apply computeOutOfFlowHorizontalGeometry_returns|].
  split; [apply lookup_withDisplayBox|].
  unfold withHorizontalGeometry; simpl.
  unfold selectedSolution, solutionAfterMax. rewrite Hmax, Hmin.
  destruct (Z.gtb_spec (widthOf (unconstrainedSolution this b ctx))
                       (widthOf (constrainedSolution this b cb ctx maxWidth)));
    [reflexivity | lia].
Qed.

(** C3, as the code has it.  The resolver stores, in the record of the box,
    a left offset equal to the left of the selected solution (the working
    solution after the max and min comparisons) plus that solution's left
    margin, and the selected solution's width, margin and non-computed
    margin; the top offset of the record is left as it was. *)
Theorem horizontal_geometry_comes_from_selected_solution this b cb ctx :
  containingBlock b = Some cb →
  ∃ ctx' d,
    computeOutOfFlowHorizontalGeometry this b ctx = Returns (tt, ctx')
    ∧ m_layoutToDisplayBox ctx' !! b = Some d
    ∧ let selected := selectedSolution this b cb ctx in
      let widthAndMargin := HorizontalGeometry.widthAndMargin selected in
      Display.left d
      = layoutUnitPlus (HorizontalGeometry.left selected)
                       (HorizontalEdges.left (WidthAndMargin.margin widthAndMargin))
      ∧ Display.contentBoxWidth d = WidthAndMargin.width widthAndMargin
      ∧ Display.horizontalMargin d = WidthAndMargin.margin widthAndMargin
      ∧ Display.horizontalNonComputedMargin d = WidthAndMargin.nonComputedMargin widthAndMargin
      ∧ Display.top d = Display.top (displayBoxOf ctx b).
Proof.
  intros Hcb.
  eexists _, _. split; [by apply computeOutOfFlowHorizontalGeometry_returns|].
  split; [apply lookup_withDisplayBox|].
  repeat split.
Qed.

(** ** The vertical resolver *)

(** What a run of the vertical resolver amounts to: it stops at the
    assertion when assertions are compiled in and the selected solution
    carries a collapsed margin, and stores the selected solution otherwise. *)
Lemma computeOutOfFlowVerticalGeometry_outcome b ctx :
  computeOutOfFlowVerticalGeometry b ctx
  = if assertionsEnabled
       && bool_decide (is_Some (HeightAndMargin.collapsedMargin
                                  (VerticalGeometry.heightAndMargin
                                     (selectedVerticalSolution b ctx))))
    then AssertionFailed
    else Returns (tt, withDisplayBox b
                        (withVerticalGeometry (selectedVerticalSolution b ctx)
                           (displayBoxOf ctx b))
                        ctx).
Proof.
  unfold computeOutOfFlowVerticalGeometry, selectedVerticalSolution, heightOf.
  cbv [bind ret getContext].
  destruct (computedMaxHeight ctx b) as [maxHeight|]; cbv beta iota zeta.
  all: try match goal with
    | |- context [if (?l >? ?r)%Z then _ else _] => destruct (l >? r)%Z; cbv beta iota zeta
    end.
  all: destruct (computedMinHeight ctx b) as [minHeight|]; cbv beta iota zeta.
  all: try match goal with
    | |- context [if (?l <? ?r)%Z then _ else _] => destruct (l <? r)%Z; cbv beta iota zeta
    end.
  all: rewrite displayBoxForLayoutBox_ensures; cbv beta iota;
    rewrite ensured_withDisplayBox, !updateDisplayBox_withDisplayBox; cbv beta iota;
    unfold ASSERT; rewrite negb_involutive;
    match goal with
    | |- context [assertionsEnabled && ?c] => destruct (assertionsEnabled && c)
    end; cbv beta iota;
    rewrite ?updateDisplayBox_withDisplayBox; cbv beta iota;
    rewrite ?updateDisplayBox_withDisplayBox; reflexivity.
Qed.

(** The assertion is live: a debug build stops when the selected solution
    carries a collapsed margin. *)
Lemma collapsed_margin_stops_debug_build b ctx :
  assertionsEnabled = true →
  is_Some (HeightAndMargin.collapsedMargin
             (VerticalGeometry.heightAndMargin (selectedVerticalSolution b ctx))) →
  computeOutOfFlowVerticalGeometry b ctx = AssertionFailed.
Proof.
  intros Hdebug Hcollapsed.
  rewrite computeOutOfFlowVerticalGeometry_outcome, Hdebug.
  by rewrite bool_decide_eq_true_2.
Qed.

Lemma selectedVerticalSolution_is_candidate b ctx :
  ∃ usedHeight,
    selectedVerticalSolution b ctx = outOfFlowVerticalGeometry ctx b usedHeight.
Proof.
  unfold selectedVerticalSolution.
  destruct (computedMaxHeight ctx b) as [maxHeight|];
    destruct (computedMinHeight ctx b) as [minHeight|];
    cbv zeta;
    repeat match goal with
      | |- context [if ?c then _ else _] => destruct c
      end; eauto.
Qed.

Lemma computeOutOfFlowVerticalGeometry_returns b ctx :
  (∀ ctx0 usedHeight,
     HeightAndMargin.collapsedMargin
       (VerticalGeometry.heightAndMargin (outOfFlowVerticalGeometry ctx0 b usedHeight))
     = None) →
  computeOutOfFlowVerticalGeometry b ctx
  = Returns (tt, withDisplayBox b
                   (withVerticalGeometry (selectedVerticalSolution b ctx)
                      (displayBoxOf ctx b))
                   ctx).
Proof.
  intros Hnever.
  rewrite computeOutOfFlowVerticalGeometry_outcome.
  destruct (selectedVerticalSolution_is_candidate b ctx) as [usedHeight ->].
  rewrite Hnever.
  rewrite bool_decide_eq_false_2 by (intros [? ?]; discriminate).
  by rewrite andb_false_r.
Qed.

(** C8. If the Geometry collaborator never produces a collapsed margin for
    the box, the vertical resolver never stops at its assertion, whether
    assertions are compiled in or not: it returns, with the selected
    solution stored. *)
Theorem collapsed_margin_assertion_unreachable b :
  (∀ ctx usedHeight,
     HeightAndMargin.collapsedMargin
       (VerticalGeometry.heightAndMargin (outOfFlowVerticalGeometry ctx b usedHeight))
     = None) →
  ∀ ctx,
    computeOutOfFlowVerticalGeometry b ctx ≠ AssertionFailed
    ∧ computeOutOfFlowVerticalGeometry b ctx
      = Returns (tt, withDisplayBox b
                       (withVerticalGeometry (selectedVerticalSolution b ctx)
                          (displayBoxOf ctx b))
                       ctx).
Proof.
  intros Hnever ctx.
  rewrite (computeOutOfFlowVerticalGeometry_returns b ctx Hnever).
  split; [discriminate | reflexivity].
Qed.

(** C10. After the vertical resolver returns, the record of the box has its
    vertical non-collapsed margin equal to its vertical margin, both being
    the margin of the selected solution. *)
Theorem vertical_non_collapsed_margin_equals_margin b ctx ctx' :
  computeOutOfFlowVerticalGeometry b ctx = Returns (tt, ctx') →
  ∃ d,
    m_layoutToDisplayBox ctx' !! b = Some d
    ∧ Display.verticalNonCollapsedMargin d = Display.verticalMargin d
    ∧ Display.verticalMargin d
      = HeightAndMargin.margin
          (VerticalGeometry.heightAndMargin (selectedVerticalSolution b ctx)).
Proof.
  rewrite computeOutOfFlowVerticalGeometry_outcome.
  destruct (assertionsEnabled && _); [discriminate|].
  intros [= <-].
  eexists. split; [apply lookup_withDisplayBox|]. split; reflexivity.
Qed.

(** ** The coordinate mapper *)

Lemma OnlyCreatesRecords_refl ctx : OnlyCreatesRecords ctx ctx.
Proof.
  split; [done|]. split; [|done].
  intros b d Hd. unfold displayBoxOf. by rewrite Hd.
Qed.

Lemma OnlyCreatesRecords_ensured b ctx : OnlyCreatesRecords ctx (ensured b ctx).
Proof.
  split; [intros b' d; apply lookup_ensured_stored|]. split; [|done].
  intros b' d. destruct (decide (b = b')) as [->|Hne].
  - rewrite lookup_ensured. congruence.
  - unfold ensured; simpl. rewrite lookup_insert_ne by done.
    intros Hd. unfold displayBoxOf. by rewrite Hd.
Qed.

Lemma OnlyCreatesRecords_displayBoxOf ctx ctx' b :
  OnlyCreatesRecords ctx ctx' → displayBoxOf ctx' b = displayBoxOf ctx b.
Proof.
  intros (Hkeep & Hfresh & _). unfold displayBoxOf at 1.
  destruct (m_layoutToDisplayBox ctx' !! b) as [d|] eqn:Hd; simpl.
  - by apply Hfresh.
  - unfold displayBoxOf.
    destruct (m_layoutToDisplayBox ctx !! b) as [d|] eqn:Hd0; [|done].
    apply Hkeep in Hd0. congruence.
Qed.

Lemma OnlyCreatesRecords_trans ctx1 ctx2 ctx3 :
  OnlyCreatesRecords ctx1 ctx2 → OnlyCreatesRecords ctx2 ctx3 →
  OnlyCreatesRecords ctx1 ctx3.
Proof.
  intros H12 H23.
  assert (Hsame : ∀ b, displayBoxOf ctx2 b = displayBoxOf ctx1 b)
    by (intros b; by apply OnlyCreatesRecords_displayBoxOf).
  destruct H12 as (Hkeep12 & Hfresh12 & Hfs12), H23 as (Hkeep23 & Hfresh23 & Hfs23).
  split; [auto|]. split; [|congruence].
  intros b d Hd. rewrite <- Hsame. by apply Hfresh23.
Qed.

Lemma movedAlong_same_records ctx ctx' chain position :
  (∀ c, displayBoxOf ctx' c = displayBoxOf ctx c) →
  movedAlong ctx' chain position = movedAlong ctx chain position.
Proof.
  intros Hsame. unfold movedAlong.
  revert position. induction chain as [|c chain IH]; intros position; simpl; [done|].
  by rewrite Hsame, IH.
Qed.

(** With exact addition, moving along a chain adds the sum of the top-lefts
    of the chain to the position. *)
Lemma movedAlong_exact_sum ctx chain position :
  movedAlong (LU := exactArithmetic) ctx chain position
  = LayoutPoint.mk (LayoutPoint.x position + sumAlong LayoutPoint.x ctx chain)
                   (LayoutPoint.y position + sumAlong LayoutPoint.y ctx chain).
Proof.
  unfold movedAlong, sumAlong. revert position.
  induction chain as [|c chain IH]; intros [x y]; simpl.
  - f_equal; lia.
  - rewrite IH. simpl. unfold layoutUnitPlus, exactArithmetic. f_equal; lia.
Qed.

(** The loop never changes a stored record, whatever it returns. *)
Lemma walkToAncestor_only_creates_records fuel ancestor :
  ∀ start position ctx stopped ctx',
    walkToAncestor fuel ancestor start position ctx = Returns (stopped, ctx') →
    OnlyCreatesRecords ctx ctx'.
Proof.
  induction fuel as [|fuel IH]; intros [c|] position ctx stopped ctx'; simpl;
    try (intros [= <- <-]; apply OnlyCreatesRecords_refl);
    destruct (decide (c = ancestor));
    try (intros [= <- <-]; apply OnlyCreatesRecords_refl);
    try discriminate.
  unfold bind. rewrite displayBoxForLayoutBox_ensures. intros Hwalk.
  apply IH in Hwalk.
  eapply OnlyCreatesRecords_trans; [apply OnlyCreatesRecords_ensured | done].
Qed.

(** Along a chain that ends at the ancestor or at null, a budget of one
    iteration per box of the chain is enough, and the loop returns where the
    chain ends, with the position moved along the chain. *)
Lemma walkToAncestor_chain ancestor start chain stopAt :
  ContainingBlockChain ancestor start chain stopAt →
  ∀ fuel position ctx,
    length chain ≤ fuel →
    ∃ ctx',
      walkToAncestor fuel ancestor start position ctx
      = Returns ((stopAt, movedAlong ctx chain position), ctx').
Proof.
  induction 1 as [| |c chain stopAt Hne Hchain IH]; intros fuel position ctx Hfuel.
  - exists ctx. by destruct fuel.
  - exists ctx. destruct fuel; simpl; by rewrite decide_True.
  - destruct fuel as [|fuel]; simpl in Hfuel; [lia|].
    simpl. rewrite decide_False by done.
    unfold bind. rewrite displayBoxForLayoutBox_ensures.
    destruct (IH fuel (LayoutPoint.moveBy position (Display.topLeft (displayBoxOf ctx c)))
                 (ensured c ctx)) as [ctx' Hwalk]; [lia|].
    exists ctx'. rewrite Hwalk.
    by rewrite (movedAlong_same_records ctx) by (intros; apply displayBoxOf_ensured).
Qed.

Lemma readDisplayBox_after_ensured b ctx ctx' :
  OnlyCreatesRecords (ensured b ctx) ctx' →
  readDisplayBox b ctx' = Returns (displayBoxOf ctx b, ctx').
Proof.
  intros (Hkeep & _). unfold readDisplayBox.
  by rewrite (Hkeep b (displayBoxOf ctx b)) by apply lookup_ensured.
Qed.

Lemma ASSERT_holds cond ctx : cond = true → ASSERT cond ctx = Returns (tt, ctx).
Proof. intros ->. unfold ASSERT. by rewrite andb_false_r. Qed.

Lemma ASSERT_compiled_out cond ctx :
  assertionsEnabled = false → ASSERT cond ctx = Returns (tt, ctx).
Proof. intros Hrelease. unfold ASSERT. by rewrite Hrelease. Qed.

(** [mapCoordinateToAncestor] along a chain that reaches the ancestor. *)
Lemma mapCoordinateToAncestor_chain fuel position cb ancestor chain ctx :
  ContainingBlockChain ancestor (Some cb) chain (Some ancestor) →
  length chain ≤ fuel →
  ∃ ctx',
    mapCoordinateToAncestor fuel position cb ancestor ctx
    = Returns (movedAlong ctx chain position, ctx').
Proof.
  intros Hchain Hfuel.
  destruct (walkToAncestor_chain _ _ _ _ Hchain fuel position ctx Hfuel) as [ctx' Hwalk].
  exists ctx'. unfold mapCoordinateToAncestor, bind. by rewrite Hwalk.
Qed.

(** C4. For a box that is a descendant of the ancestor, with [chain] the
    containing blocks from its own up to, not including, the ancestor, both
    mapping operations return, and the position they produce is the stored
    top-left of the box moved by the top-left of every box of [chain] in
    turn; [mapBoxToAncestor] returns the record of the box with that
    top-left. *)
Theorem mapping_accumulates_containing_block_offsets fuel b ancestor chain ctx :
  isDescendantOf b ancestor = true →
  ContainingBlockChain ancestor (containingBlock b) chain (Some ancestor) →
  length chain ≤ fuel →
  let mapped := movedAlong ctx chain (Display.topLeft (displayBoxOf ctx b)) in
  (∃ ctx', mapBoxToAncestor fuel b ancestor ctx
           = Returns (Display.setTopLeft mapped (displayBoxOf ctx b), ctx'))
  ∧ (∃ ctx', mapTopLeftToAncestor fuel b ancestor ctx = Returns (mapped, ctx')).
Proof.
  intros Hdescendant Hchain Hfuel mapped. split.
  - destruct (walkToAncestor_chain _ _ _ _ Hchain fuel
                (Display.topLeft (displayBoxOf ctx b)) (ensured b ctx) Hfuel)
      as [ctx' Hwalk].
    exists ctx'. unfold mapBoxToAncestor, bind.
    rewrite ASSERT_holds by done.
    rewrite displayBoxForLayoutBox_ensures, Hwalk; simpl.
    rewrite (readDisplayBox_after_ensured b ctx)
      by (eapply walkToAncestor_only_creates_records, Hwalk).
    unfold ret, mapped.
    by rewrite (movedAlong_same_records ctx) by (intros; apply displayBoxOf_ensured).
  - unfold mapTopLeftToAncestor, bind.
    rewrite ASSERT_holds by done.
    rewrite displayBoxForLayoutBox_ensures.
    destruct (containingBlock b) as [cb|] eqn:Hcb; [|inversion Hchain]; simpl.
    destruct (mapCoordinateToAncestor_chain fuel (Display.topLeft (displayBoxOf ctx b))
                cb ancestor chain (ensured b ctx) Hchain Hfuel) as [ctx' Hmap].
    exists ctx'. rewrite Hmap. unfold mapped.
    by rewrite (movedAlong_same_records ctx) by (intros; apply displayBoxOf_ensured).
Qed.

(** C5. In a build without assertions, when the chain walked from the box
    (for [mapBoxToAncestor]) or from the given containing block (for
    [mapCoordinateToAncestor]) ends at null without meeting the ancestor,
    the operations return normally: [mapBoxToAncestor] a copy of the record
    of the box, stored top-left included, [mapCoordinateToAncestor] the
    position it was given. *)
Theorem unreachable_ancestor_returns_unmapped_value
    fuel ancestor b chainOfBox position cb chain ctx :
  assertionsEnabled = false →
  ContainingBlockChain ancestor (containingBlock b) chainOfBox None →
  length chainOfBox ≤ fuel →
  ContainingBlockChain ancestor (Some cb) chain None →
  length chain ≤ fuel →
  (∃ ctx', mapBoxToAncestor fuel b ancestor ctx = Returns (displayBoxOf ctx b, ctx'))
  ∧ (∃ ctx', mapCoordinateToAncestor fuel position cb ancestor ctx
             = Returns (position, ctx')).
Proof.
  intros Hrelease HchainOfBox HfuelOfBox Hchain Hfuel. split.
  - destruct (walkToAncestor_chain _ _ _ _ HchainOfBox fuel
                (Display.topLeft (displayBoxOf ctx b)) (ensured b ctx) HfuelOfBox)
      as [ctx' Hwalk].
    exists ctx'. unfold mapBoxToAncestor, bind.
    rewrite ASSERT_compiled_out by done.
    rewrite displayBoxForLayoutBox_ensures, Hwalk; simpl.
    unfold ASSERT_NOT_REACHED. rewrite ASSERT_compiled_out by done.
    by rewrite (readDisplayBox_after_ensured b ctx)
      by (eapply walkToAncestor_only_creates_records, Hwalk).
  - destruct (walkToAncestor_chain _ _ _ _ Hchain fuel position ctx Hfuel) as [ctx' Hwalk].
    exists ctx'. unfold mapCoordinateToAncestor, bind. rewrite Hwalk; simpl.
    unfold ASSERT_NOT_REACHED. by rewrite ASSERT_compiled_out by done.
Qed.

(** The same inputs stop a debug build. *)
Lemma unreachable_ancestor_stops_debug_build fuel ancestor position cb chain ctx :
  assertionsEnabled = true →
  ContainingBlockChain ancestor (Some cb) chain None →
  length chain ≤ fuel →
  mapCoordinateToAncestor fuel position cb ancestor ctx = AssertionFailed.
Proof.
  intros Hdebug Hchain Hfuel.
  destruct (walkToAncestor_chain _ _ _ _ Hchain fuel position ctx Hfuel) as [ctx' Hwalk].
  unfold mapCoordinateToAncestor, bind. rewrite Hwalk; simpl.
  unfold ASSERT_NOT_REACHED, ASSERT. by rewrite Hdebug.
Qed.

(** Along a chain, a loop that returns has walked the whole chain. *)
Lemma walkToAncestor_chain_determines ancestor start chain stopAt :
  ContainingBlockChain ancestor start chain stopAt →
  ∀ fuel position ctx stopped ctx',
    walkToAncestor fuel ancestor start position ctx = Returns (stopped, ctx') →
    stopped = (stopAt, movedAlong ctx chain position).
Proof.
  induction 1 as [| |c chain stopAt Hne Hchain IH];
    intros fuel position ctx stopped ctx'.
  - destruct fuel; simpl; by intros [= <- <-].
  - destruct fuel; simpl; rewrite decide_True by done; by intros [= <- <-].
  - destruct fuel as [|fuel]; simpl; rewrite decide_False by done; [discriminate|].
    unfold bind. rewrite displayBoxForLayoutBox_ensures. intros Hwalk.
    apply IH in Hwalk. rewrite Hwalk.
    by rewrite (movedAlong_same_records ctx) by (intros; apply displayBoxOf_ensured).
Qed.

(** C9. Whenever [mapBoxToAncestor] returns, the record it returns is the
    record of the box with another top-left: the stored top-left moved by
    the top-left of every containing block from the one of the box up to,
    not including, the ancestor, when that chain reaches the ancestor, and
    the stored top-left itself when it ends at null.  Every record stored
    before the call is stored unchanged after it, the only records added are
    fresh ones for boxes that had none, and the rest of the pass state is
    the same. *)
Theorem mapBoxToAncestor_leaves_records_unchanged fuel b ancestor ctx mapped ctx' :
  mapBoxToAncestor fuel b ancestor ctx = Returns (mapped, ctx') →
  (∀ b' d, m_layoutToDisplayBox ctx !! b' = Some d →
           m_layoutToDisplayBox ctx' !! b' = Some d)
  ∧ OnlyCreatesRecords ctx ctx'
  ∧ mapped = Display.setTopLeft (Display.topLeft mapped) (displayBoxOf ctx b)
  ∧ (∀ chain,
       ContainingBlockChain ancestor (containingBlock b) chain (Some ancestor) →
       Display.topLeft mapped
       = movedAlong ctx chain (Display.topLeft (displayBoxOf ctx b)))
  ∧ (∀ chain,
       ContainingBlockChain ancestor (containingBlock b) chain None →
       Display.topLeft mapped = Display.topLeft (displayBoxOf ctx b)).
Proof.
  unfold mapBoxToAncestor, bind, ASSERT_NOT_REACHED, ASSERT.
  destruct (assertionsEnabled && negb (isDescendantOf b ancestor)); [discriminate|].
  rewrite displayBoxForLayoutBox_ensures.
  destruct (walkToAncestor fuel ancestor (containingBlock b)
              (Display.topLeft (displayBoxOf ctx b)) (ensured b ctx))
    as [[[stopAt position] ctx1]| | |] eqn:Hwalk; try discriminate.
  assert (Hdetermined : ∀ chain stopChain,
    ContainingBlockChain ancestor (containingBlock b) chain stopChain →
    stopAt = stopChain
    ∧ position = movedAlong ctx chain (Display.topLeft (displayBoxOf ctx b))).
  { intros chain stopChain Hchain.
    pose proof (walkToAncestor_chain_determines _ _ _ _ Hchain _ _ _ _ _ Hwalk) as Heq.
    rewrite (movedAlong_same_records ctx) in Heq by (intros; apply displayBoxOf_ensured).
    by injection Heq. }
  apply walkToAncestor_only_creates_records in Hwalk.
  pose proof (OnlyCreatesRecords_trans _ _ _ (OnlyCreatesRecords_ensured b ctx) Hwalk)
    as Honly.
  simpl. destruct stopAt as [c|].
  - rewrite (readDisplayBox_after_ensured b ctx) by done. unfold ret.
    intros [= <- <-]. split; [exact (proj1 Honly)|]. split; [done|].
    split; [reflexivity|]. split.
    + intros chain Hchain. by destruct (Hdetermined _ _ Hchain) as [_ ->].
    + intros chain Hchain. by destruct (Hdetermined _ _ Hchain) as [? _].
  - destruct (assertionsEnabled && true); [discriminate|].
    rewrite (readDisplayBox_after_ensured b ctx) by done. unfold ret.
    intros [= <- <-]. split; [exact (proj1 Honly)|]. split; [done|].
    split; [by destruct (displayBoxOf ctx b)|]. split.
    + intros chain Hchain. by destruct (Hdetermined _ _ Hchain) as [? _].
    + reflexivity.
Qed.

(** ** The out-of-flow traversal *)

Lemma layoutOutOfFlowDescendants_O this b :
  layoutOutOfFlowDescendants 0 this b
  = if negb (isPositioned b) && negb (isInitialContainingBlock b) then ret tt
    else if negb (isContainer b) then ret tt
    else if negb (hasChild b) then ret tt
    else forEach (outOfFlowDescendants b)
           (layoutOutOfFlowBox (fun _ => stop OutOfFuel) this).
Proof. reflexivity. Qed.

Lemma layoutOutOfFlowDescendants_S fuel this b :
  layoutOutOfFlowDescendants (S fuel) this b
  = if negb (isPositioned b) && negb (isInitialContainingBlock b) then ret tt
    else if negb (isContainer b) then ret tt
    else if negb (hasChild b) then ret tt
    else forEach (outOfFlowDescendants b)
           (layoutOutOfFlowBox (layoutOutOfFlowDescendants fuel this) this).
Proof. reflexivity. Qed.

Lemma layoutOutOfFlowDescendantsLogged_O this b :
  layoutOutOfFlowDescendantsLogged 0 this b
  = if negb (isPositioned b) && negb (isInitialContainingBlock b) then ret tt
    else if negb (isContainer b) then ret tt
    else if negb (hasChild b) then ret tt
    else forEach (outOfFlowDescendants b)
           (layoutOutOfFlowBoxLogged (fun _ => stop OutOfFuel) this).
Proof. reflexivity. Qed.

Lemma layoutOutOfFlowDescendantsLogged_S fuel this b :
  layoutOutOfFlowDescendantsLogged (S fuel) this b
  = if negb (isPositioned b) && negb (isInitialContainingBlock b) then ret tt
    else if negb (isContainer b) then ret tt
    else if negb (hasChild b) then ret tt
    else forEach (outOfFlowDescendants b)
           (layoutOutOfFlowBoxLogged (layoutOutOfFlowDescendantsLogged fuel this) this).
Proof. reflexivity. Qed.

(** C7. For a box that is neither positioned nor the initial containing
    block, or that is not a container, or that is a container with no
    out-of-flow descendants, the traversal returns at once in the state it
    was started in, for every recursion budget, and performs no step. *)
Theorem layoutOutOfFlowDescendants_is_noop fuel this b ctx :
  (isPositioned b = false ∧ isInitialContainingBlock b = false)
  ∨ isContainer b = false
  ∨ (isContainer b = true ∧ outOfFlowDescendants b = []) →
  layoutOutOfFlowDescendants fuel this b ctx = Returns (tt, ctx)
  ∧ ∀ log, layoutOutOfFlowDescendantsLogged fuel this b (ctx, log) = Returns (tt, (ctx, log)).
Proof.
  intros Hcase.
  destruct fuel;
    rewrite ?layoutOutOfFlowDescendants_O, ?layoutOutOfFlowDescendants_S,
      ?layoutOutOfFlowDescendantsLogged_O, ?layoutOutOfFlowDescendantsLogged_S;
    destruct Hcase as [[-> ->]|[->|[-> ->]]]; simpl;
    repeat match goal with
      | |- context [if ?c then _ else _] => destruct c; simpl
      end; done.
Qed.

(** One out-of-flow box: if the recursive call of the logged traversal
    follows the one of the traversal, so does the loop body, and it logs the
    four steps of the box before whatever the recursive call logs. *)
Lemma layoutOutOfFlowBox_logged
    (recurse : BoxId → M (LayoutContext FS) unit)
    (recurseLogged : BoxId → M (LayoutContext FS * list Step) unit)
    (this : FormattingContext) (d : BoxId) :
  (∀ ctx ctx', recurse d ctx = Returns (tt, ctx') →
     ∀ log, ∃ inner,
       recurseLogged d (ctx, log) = Returns (tt, (ctx', log ++ inner))
       ∧ DepthFirstOrder d inner) →
  ∀ ctx ctx', layoutOutOfFlowBox recurse this d ctx = Returns (tt, ctx') →
    ∀ log, ∃ inner,
      layoutOutOfFlowBoxLogged recurseLogged this d (ctx, log)
      = Returns (tt, (ctx', log ++ [BorderAndPadding d; HorizontalGeometryOf d;
                                    FormattingContextLayout d; VerticalGeometryOf d]
                                ++ inner))
      ∧ DepthFirstOrder d inner.
Proof.
  intros Hrecurse ctx ctx'.
  unfold layoutOutOfFlowBox, layoutOutOfFlowBoxLogged, bind, onContext, emit; simpl.
  destruct (ASSERT _ ctx) as [[[] ctx1]| | |]; try discriminate; simpl.
  destruct (computeBorderAndPadding d _) as [[[] ctx2]| | |]; try discriminate; simpl.
  destruct (computeOutOfFlowHorizontalGeometry this d _) as [[[] ctx3]| | |];
    try discriminate; simpl.
  destruct (computeOutOfFlowVerticalGeometry d _) as [[[] ctx4]| | |];
    try discriminate; simpl.
  intros Hrun log.
  destruct (Hrecurse _ _ Hrun
              ((((log ++ [BorderAndPadding d]) ++ [HorizontalGeometryOf d])
                ++ [FormattingContextLayout d]) ++ [VerticalGeometryOf d]))
    as (inner & Hlogged & Horder).
  exists inner. split; [|done].
  rewrite Hlogged. by rewrite <- !app_assoc.
Qed.

Lemma forEach_layoutOutOfFlowBox_logged
    (recurse : BoxId → M (LayoutContext FS) unit)
    (recurseLogged : BoxId → M (LayoutContext FS * list Step) unit)
    (this : FormattingContext) (siblings : list BoxId) :
  (∀ (d : BoxId) ctx ctx', recurse d ctx = Returns (tt, ctx') →
     ∀ log, ∃ inner,
       recurseLogged d (ctx, log) = Returns (tt, (ctx', log ++ inner))
       ∧ DepthFirstOrder d inner) →
  ∀ ctx ctx',
    forEach siblings (layoutOutOfFlowBox recurse this) ctx = Returns (tt, ctx') →
    ∀ log, ∃ steps,
      forEach siblings (layoutOutOfFlowBoxLogged recurseLogged this) (ctx, log)
      = Returns (tt, (ctx', log ++ steps))
      ∧ DepthFirstSiblings siblings steps.
Proof.
  intros Hrecurse.
  induction siblings as [|d siblings IH]; intros ctx ctx'; simpl.
  - intros [= <-] log. exists []. rewrite app_nil_r. split; [done|constructor].
  - unfold bind at 1.
    destruct (layoutOutOfFlowBox recurse this d ctx) as [[[] ctx1]| | |] eqn:Hbox;
      try discriminate.
    intros Hrest log.
    destruct (layoutOutOfFlowBox_logged recurse recurseLogged this d (Hrecurse d)
                _ _ Hbox log) as (inner & Hlogged & Hinner).
    destruct (IH _ _ Hrest
                (log ++ [BorderAndPadding d; HorizontalGeometryOf d;
                         FormattingContextLayout d; VerticalGeometryOf d] ++ inner))
      as (later & Hlater & Hsiblings).
    eexists. split; [|by apply depthFirst_next].
    unfold bind at 1. rewrite Hlogged, Hlater.
    by rewrite <- !app_assoc.
Qed.

Lemma closed_gate_has_no_descendants b :
  OutOfFlowSetsWellFormed →
  (negb (isPositioned b) && negb (isInitialContainingBlock b) = true
   ∨ negb (isContainer b) = true ∨ negb (hasChild b) = true) →
  outOfFlowDescendants b = [].
Proof.
  intros Hwf Hclosed.
  destruct (outOfFlowDescendants b) as [|d ds] eqn:Hoof; [done|].
  destruct (Hwf b) as (Hpositioned & Hcontainer & Hchild); [by rewrite Hoof|].
  rewrite Hcontainer, Hchild in Hclosed. simpl in Hclosed.
  destruct Hclosed as [Hgate|[Hgate|Hgate]]; try discriminate.
  destruct Hpositioned as [Hp|Hp]; rewrite Hp in Hgate; simpl in Hgate;
    rewrite ?andb_false_r in Hgate; discriminate.
Qed.

(** In a well-formed tree, whenever the traversal of a box returns, the
    logged traversal returns in the same state, and the labels it logged are
    in depth-first order. *)
Lemma logged_traversal_is_depth_first fuel this b ctx ctx' :
  OutOfFlowSetsWellFormed →
  layoutOutOfFlowDescendants fuel this b ctx = Returns (tt, ctx') →
  ∀ log, ∃ steps,
    layoutOutOfFlowDescendantsLogged fuel this b (ctx, log)
    = Returns (tt, (ctx', log ++ steps))
    ∧ DepthFirstOrder b steps.
Proof.
  intros Hwf. revert b ctx ctx'.
  assert (Hclosed : ∀ b ctx ctx' log,
    (negb (isPositioned b) && negb (isInitialContainingBlock b) = true
     ∨ negb (isContainer b) = true ∨ negb (hasChild b) = true) →
    ret (S := LayoutContext FS) tt ctx = Returns (tt, ctx') →
    ∃ steps, ret (S := LayoutContext FS * list Step) tt (ctx, log)
             = Returns (tt, (ctx', log ++ steps))
             ∧ DepthFirstOrder b steps).
  { intros b ctx ctx' log Hgate [= <-]. exists [].
    rewrite app_nil_r. split; [done|].
    constructor. rewrite (closed_gate_has_no_descendants b Hwf Hgate). constructor. }
  induction fuel as [|fuel IH]; intros b ctx ctx';
    rewrite ?layoutOutOfFlowDescendants_O, ?layoutOutOfFlowDescendants_S,
      ?layoutOutOfFlowDescendantsLogged_O, ?layoutOutOfFlowDescendantsLogged_S.
  all: destruct (negb (isPositioned b) && negb (isInitialContainingBlock b)) eqn:Hgate1;
    [intros Hrun log; apply Hclosed; auto|].
  all: destruct (negb (isContainer b)) eqn:Hgate2;
    [intros Hrun log; apply Hclosed; auto|].
  all: destruct (negb (hasChild b)) eqn:Hgate3;
    [intros Hrun log; apply Hclosed; auto|].
  all: intros Hrun log.
  - destruct (forEach_layoutOutOfFlowBox_logged
                (fun _ => stop OutOfFuel) (fun _ => stop OutOfFuel) this
                (outOfFlowDescendants b)) with (ctx := ctx) (ctx' := ctx') (log := log)
      as (steps & Hlogged & Hsiblings); [discriminate | done |].
    exists steps. split; [done | by constructor].
  - destruct (forEach_layoutOutOfFlowBox_logged
                (layoutOutOfFlowDescendants fuel this)
                (layoutOutOfFlowDescendantsLogged fuel this) this
                (outOfFlowDescendants b)) with (ctx := ctx) (ctx' := ctx') (log := log)
      as (steps & Hlogged & Hsiblings); [intros d; apply IH | done |].
    exists steps. split; [done | by constructor].
Qed.

(** The depth-first order of a box is unique: the relation pins down the
    whole log. *)
Lemma DepthFirstOrder_unique (b : BoxId) steps1 steps2 :
  DepthFirstOrder b steps1 → DepthFirstOrder b steps2 → steps1 = steps2.
Proof.
  intros Hfirst. revert steps2. revert b steps1 Hfirst.
  apply (DepthFirstOrder_mutual
           (fun b steps1 => ∀ steps2, DepthFirstOrder b steps2 → steps1 = steps2)
           (fun siblings steps1 =>
              ∀ steps2, DepthFirstSiblings siblings steps2 → steps1 = steps2)).
  - intros container steps _ IH steps2 Hsecond. inversion Hsecond; subst. auto.
  - intros steps2 Hsecond. by inversion Hsecond.
  - intros o siblings inner later _ IHinner _ IHlater steps2 Hsecond.
    inversion Hsecond; subst.
    f_equal. f_equal; auto.
Qed.

Lemma computeBorderAndPadding_returns b ctx :
  ∃ ctx', computeBorderAndPadding b ctx = Returns (tt, ctx').
Proof.
  unfold computeBorderAndPadding, bind, getContext.
  rewrite displayBoxForLayoutBox_ensures. eauto.
Qed.

(** The traversal returns when the recursion budget covers the nesting of
    out-of-flow boxes, every out-of-flow box has a containing block and
    establishes a formatting context, and Geometry never produces a collapsed
    margin. *)
Lemma layoutOutOfFlowDescendants_returns fuel this :
  (∀ c (o : BoxId), o ∈ outOfFlowDescendants c → is_Some (containingBlock o)) →
  (∀ c (o : BoxId), o ∈ outOfFlowDescendants c → establishesFormattingContext o = true) →
  (∀ ctx (o : BoxId) usedHeight,
     HeightAndMargin.collapsedMargin
       (VerticalGeometry.heightAndMargin (outOfFlowVerticalGeometry ctx o usedHeight))
     = None) →
  ∀ b ctx,
    NestingAtMost fuel b →
    ∃ ctx', layoutOutOfFlowDescendants fuel this b ctx = Returns (tt, ctx').
Proof.
  intros HcontainingBlock Hestablishes Hnever.
  assert (Hbody : ∀ (recurse : BoxId → M (LayoutContext FS) unit) c (siblings : list BoxId),
    (∀ o, o ∈ siblings → o ∈ outOfFlowDescendants c) →
    (∀ o ctx, o ∈ siblings → ∃ ctx', recurse o ctx = Returns (tt, ctx')) →
    ∀ ctx, ∃ ctx', forEach siblings (layoutOutOfFlowBox recurse this) ctx
                   = Returns (tt, ctx')).
  { intros recurse c siblings.
    induction siblings as [|o siblings IH]; intros Hsub Hrecurse ctx; simpl; [by eexists|].
    unfold bind at 1. unfold layoutOutOfFlowBox at 1. unfold bind.
    rewrite ASSERT_holds by (eapply Hestablishes, Hsub; left).
    unfold collaborator.
    destruct (computeBorderAndPadding_returns o (formattingContext o ctx)) as [ctx1 ->].
    destruct (HcontainingBlock c o) as [cb Hcb]; [apply Hsub; left|].
    rewrite (computeOutOfFlowHorizontalGeometry_returns this o cb) by done.
    rewrite computeOutOfFlowVerticalGeometry_returns by auto.
    match goal with
    | |- context [recurse o ?ctx2] => destruct (Hrecurse o ctx2) as [ctx3 ->]; [left|]
    end.
    apply IH.
    - intros o' Ho'. apply Hsub. by right.
    - intros o' ctx' Ho'. apply Hrecurse. by right. }
  induction fuel as [|fuel IH]; intros b ctx Hnesting;
    rewrite ?layoutOutOfFlowDescendants_O, ?layoutOutOfFlowDescendants_S;
    repeat match goal with
      | |- context [if ?c then _ else _] => destruct c; [by eexists|]
      end.
  - simpl in Hnesting. rewrite Hnesting. by eexists.
  - apply (Hbody _ b); [done|].
    intros o ctx0 Ho. apply IH. by apply Hnesting.
Qed.

Lemma forEach_app {A} (body : A → M (LayoutContext FS) unit) (xs ys : list A) ctx ctx1 :
  forEach xs body ctx = Returns (tt, ctx1) →
  forEach (xs ++ ys) body ctx = forEach ys body ctx1.
Proof.
  revert ctx. induction xs as [|x xs IH]; intros ctx; simpl.
  - by intros [= <-].
  - unfold bind.
    destruct (body x ctx) as [[[] ctx0]| | |]; try discriminate. apply IH.
Qed.

(** One out-of-flow box: if the recursive call amounts to running the
    operations of a depth-first order of the box, the loop body amounts to
    running the four operations of the box and then those. *)
Lemma layoutOutOfFlowBox_operations
    (recurse : BoxId → M (LayoutContext FS) unit)
    (this : FormattingContext) (o : BoxId) :
  (∀ ctx ctx', recurse o ctx = Returns (tt, ctx') →
     ∃ inner, DepthFirstOrder o inner
              ∧ forEach inner (runStep this) ctx = Returns (tt, ctx')) →
  ∀ ctx ctx', layoutOutOfFlowBox recurse this o ctx = Returns (tt, ctx') →
    ∃ inner,
      DepthFirstOrder o inner
      ∧ forEach ([BorderAndPadding o; HorizontalGeometryOf o;
                  FormattingContextLayout o; VerticalGeometryOf o] ++ inner)
          (runStep this) ctx
        = Returns (tt, ctx').
Proof.
  intros Hrecurse ctx ctx'.
  unfold layoutOutOfFlowBox. cbn [app forEach runStep]. unfold bind, collaborator.
  destruct (ASSERT _ ctx) as [[[] ctx1]| | |]; try discriminate.
  destruct (computeBorderAndPadding o _) as [[[] ctx2]| | |]; try discriminate.
  destruct (computeOutOfFlowHorizontalGeometry this o _) as [[[] ctx3]| | |];
    try discriminate.
  destruct (computeOutOfFlowVerticalGeometry o _) as [[[] ctx4]| | |];
    try discriminate.
  intros Hrun. destruct (Hrecurse _ _ Hrun) as (inner & Horder & Hinner).
  by exists inner.
Qed.

Lemma forEach_layoutOutOfFlowBox_operations
    (recurse : BoxId → M (LayoutContext FS) unit)
    (this : FormattingContext) (siblings : list BoxId) :
  (∀ (o : BoxId) ctx ctx', recurse o ctx = Returns (tt, ctx') →
     ∃ inner, DepthFirstOrder o inner
              ∧ forEach inner (runStep this) ctx = Returns (tt, ctx')) →
  ∀ ctx ctx',
    forEach siblings (layoutOutOfFlowBox recurse this) ctx = Returns (tt, ctx') →
    ∃ steps,
      DepthFirstSiblings siblings steps
      ∧ forEach steps (runStep this) ctx = Returns (tt, ctx').
Proof.
  intros Hrecurse.
  induction siblings as [|o siblings IH]; intros ctx ctx'; simpl.
  - intros Hrun. exists []. split; [constructor | done].
  - unfold bind at 1.
    destruct (layoutOutOfFlowBox recurse this o ctx) as [[[] ctx1]| | |] eqn:Hbox;
      try discriminate.
    intros Hrest.
    destruct (layoutOutOfFlowBox_operations recurse this o (Hrecurse o) _ _ Hbox)
      as (inner & Hinner & Hown).
    destruct (IH _ _ Hrest) as (later & Hsiblings & Hlater).
    eexists. split; [by apply depthFirst_next|].
    rewrite (app_assoc _ inner later).
    by rewrite (forEach_app _ _ later ctx ctx1 Hown).
Qed.

(** The traversal amounts to running the operations of a depth-first order
    of the box. *)
Lemma layoutOutOfFlowDescendants_operations fuel this b ctx ctx' :
  OutOfFlowSetsWellFormed →
  layoutOutOfFlowDescendants fuel this b ctx = Returns (tt, ctx') →
  ∃ steps,
    DepthFirstOrder b steps ∧ forEach steps (runStep this) ctx = Returns (tt, ctx').
Proof.
  intros Hwf. revert b ctx ctx'.
  assert (Hclosed : ∀ b ctx ctx',
    (negb (isPositioned b) && negb (isInitialContainingBlock b) = true
     ∨ negb (isContainer b) = true ∨ negb (hasChild b) = true) →
    ret (S := LayoutContext FS) tt ctx = Returns (tt, ctx') →
    ∃ steps, DepthFirstOrder b steps
             ∧ forEach steps (runStep this) ctx = Returns (tt, ctx')).
  { intros b ctx ctx' Hgate Hrun. exists []. split; [|done].
    constructor. rewrite (closed_gate_has_no_descendants b Hwf Hgate). constructor. }
  induction fuel as [|fuel IH]; intros b ctx ctx';
    rewrite ?layoutOutOfFlowDescendants_O, ?layoutOutOfFlowDescendants_S.
  all: destruct (negb (isPositioned b) && negb (isInitialContainingBlock b)) eqn:Hgate1;
    [intros Hrun; apply Hclosed; auto|].
  all: destruct (negb (isContainer b)) eqn:Hgate2;
    [intros Hrun; apply Hclosed; auto|].
  all: destruct (negb (hasChild b)) eqn:Hgate3;
    [intros Hrun; apply Hclosed; auto|].
  all: intros Hrun.
  - destruct (forEach_layoutOutOfFlowBox_operations (fun _ => stop OutOfFuel) this
                (outOfFlowDescendants b)) with (ctx := ctx) (ctx' := ctx')
      as (steps & Hsiblings & Hsteps); [discriminate | done |].
    exists steps. split; [by constructor | done].
  - destruct (forEach_layoutOutOfFlowBox_operations (layoutOutOfFlowDescendants fuel this)
                this (outOfFlowDescendants b)) with (ctx := ctx) (ctx' := ctx')
      as (steps & Hsiblings & Hsteps); [intros o; apply IH | done |].
    exists steps. split; [by constructor | done].
Qed.

(** C6. In a well-formed tree, whenever the traversal of a box returns, the
    state it returns in is the state reached by running, one after the
    other, the operations of a list of steps in depth-first order: the
    out-of-flow descendants in list order; for each, border and padding,
    horizontal geometry, the layout of its own formatting context, vertical
    geometry, then all the steps of its own out-of-flow descendants, before
    the first step of the next sibling.  The logged traversal logs exactly
    the labels of that list. *)
Theorem out_of_flow_traversal_is_depth_first fuel this b ctx ctx' :
  OutOfFlowSetsWellFormed →
  layoutOutOfFlowDescendants fuel this b ctx = Returns (tt, ctx') →
  ∃ steps,
    DepthFirstOrder b steps
    ∧ forEach steps (runStep this) ctx = Returns (tt, ctx')
    ∧ ∀ log, layoutOutOfFlowDescendantsLogged fuel this b (ctx, log)
             = Returns (tt, (ctx', log ++ steps)).
Proof.
  intros Hwf Hrun.
  destruct (layoutOutOfFlowDescendants_operations fuel this b ctx ctx' Hwf Hrun)
    as (steps & Horder & Hsteps).
  exists steps. split; [done|]. split; [done|].
  intros log.
  destruct (logged_traversal_is_depth_first fuel this b ctx ctx' Hwf Hrun log)
    as (logged & Hlogged & Hloggedorder).
  by rewrite (DepthFirstOrder_unique b steps logged).
Qed.

End Properties.

(** * The theorems on the sample tree *)

Lemma min_width_dominates_max_width_witness :
  ∃ ctx' d,
    computeOutOfFlowHorizontalGeometry (LU := Sample.arith) (G := Sample.geometry)
      Sample.this 2%positive Sample.initialContext = Returns (tt, ctx')
    ∧ m_layoutToDisplayBox ctx' !! 2%positive = Some d
    ∧ Display.contentBoxWidth d = 600%Z.
Proof.
  apply (min_width_dominates_max_width (LU := Sample.arith) (G := Sample.geometry)
           Sample.this 2%positive 1%positive Sample.initialContext 400%Z 600%Z);
    reflexivity.
Defined.

Lemma max_width_applies_without_min_width_witness :
  ∃ ctx' d,
    computeOutOfFlowHorizontalGeometry (LU := Sample.arith) (G := Sample.geometry)
      Sample.this 5%positive Sample.initialContext = Returns (tt, ctx')
    ∧ m_layoutToDisplayBox ctx' !! 5%positive = Some d
    ∧ Display.contentBoxWidth d = 400%Z.
Proof.
  apply (max_width_applies_without_min_width (LU := Sample.arith) (G := Sample.geometry)
           Sample.this 5%positive 1%positive Sample.initialContext 400%Z);
    reflexivity.
Defined.

(** C3 as the spec states it fails on box 5, whose right edge is pinned and
    whose max-width is smaller than the available width: the unconstrained
    solution has left 0, the max-constrained solution that is selected has
    left 400, and 400 is what is stored. *)
Lemma written_left_is_not_the_unconstrained_left :
  ¬ (∀ ctx' d,
       computeOutOfFlowHorizontalGeometry (LU := Sample.arith) (G := Sample.geometry)
         Sample.this 5%positive Sample.initialContext = Returns (tt, ctx') →
       m_layoutToDisplayBox ctx' !! 5%positive = Some d →
       Display.left d
       = layoutUnitPlus (LayoutUnitOps := Sample.arith)
           (HorizontalGeometry.left
              (unconstrainedSolution (G := Sample.geometry)
                 Sample.this 5%positive Sample.initialContext))
           (HorizontalEdges.left (Display.horizontalMargin d))).
Proof.
  intros Hclaim.
  specialize (Hclaim _ _
    (computeOutOfFlowHorizontalGeometry_returns (LU := Sample.arith) (G := Sample.geometry)
       Sample.this 5%positive 1%positive Sample.initialContext eq_refl)
    (lookup_withDisplayBox _ _ _)).
  vm_compute in Hclaim. discriminate.
Qed.

Lemma horizontal_geometry_comes_from_selected_solution_witness :
  ∃ ctx' d,
    computeOutOfFlowHorizontalGeometry (LU := Sample.arith) (G := Sample.geometry)
      Sample.this 5%positive Sample.initialContext = Returns (tt, ctx')
    ∧ m_layoutToDisplayBox ctx' !! 5%positive = Some d
    ∧ Display.left d = 400%Z
    ∧ Display.contentBoxWidth d = 400%Z
    ∧ Display.horizontalMargin d = HorizontalEdges.mk 0 0
    ∧ Display.horizontalNonComputedMargin d = HorizontalEdges.mk 0 0
    ∧ Display.top d = 0%Z.
Proof.
  apply (horizontal_geometry_comes_from_selected_solution
           (LU := Sample.arith) (G := Sample.geometry)
           Sample.this 5%positive 1%positive Sample.initialContext).
  reflexivity.
Defined.

Lemma mapping_accumulates_containing_block_offsets_witness :
  (∃ ctx',
     mapBoxToAncestor (LU := Sample.arith) (G := Sample.geometry) (Build := Sample.debug)
       2 6%positive 1%positive Sample.laidOutContext
     = Returns (Display.setTopLeft (LayoutPoint.mk 111 222) (Sample.boxAt 100 200 30 30), ctx'))
  ∧ (∃ ctx',
       mapTopLeftToAncestor (LU := Sample.arith) (G := Sample.geometry) (Build := Sample.debug)
         2 6%positive 1%positive Sample.laidOutContext
       = Returns (LayoutPoint.mk 111 222, ctx')).
Proof.
  apply (mapping_accumulates_containing_block_offsets
           (LU := Sample.arith) (G := Sample.geometry) (Build := Sample.debug)
           2 6%positive 1%positive [3; 2]%positive Sample.laidOutContext).
  - reflexivity.
  - apply (chain_step (T := Sample.tree) _ 3%positive); [discriminate|].
    apply (chain_step (T := Sample.tree) _ 2%positive); [discriminate|].
    apply (chain_ancestor (T := Sample.tree)).
  - simpl; lia.
Defined.

Lemma unreachable_ancestor_returns_unmapped_value_witness :
  (∃ ctx',
     mapBoxToAncestor (LU := Sample.arith) (G := Sample.geometry) (Build := Sample.release)
       3 6%positive 5%positive Sample.laidOutContext
     = Returns (Sample.boxAt 100 200 30 30, ctx'))
  ∧ (∃ ctx',
       mapCoordinateToAncestor (LU := Sample.arith) (G := Sample.geometry)
         (Build := Sample.release)
         3 (LayoutPoint.mk 7 9) 3%positive 5%positive Sample.laidOutContext
       = Returns (LayoutPoint.mk 7 9, ctx')).
Proof.
  assert (Hchain : ContainingBlockChain (T := Sample.tree) 5%positive (Some 3%positive)
                     [3; 2; 1]%positive None).
  { apply (chain_step (T := Sample.tree) _ 3%positive); [discriminate|].
    apply (chain_step (T := Sample.tree) _ 2%positive); [discriminate|].
    apply (chain_step (T := Sample.tree) _ 1%positive); [discriminate|].
    apply (chain_null (T := Sample.tree)). }
  apply (unreachable_ancestor_returns_unmapped_value
           (LU := Sample.arith) (G := Sample.geometry) (Build := Sample.release)
           3 5%positive 6%positive [3; 2; 1]%positive (LayoutPoint.mk 7 9) 3%positive
           [3; 2; 1]%positive Sample.laidOutContext).
  - reflexivity.
  - exact Hchain.
  - simpl; lia.
  - exact Hchain.
  - simpl; lia.
Defined.

Lemma sample_tree_well_formed : OutOfFlowSetsWellFormed (T := Sample.tree).
Proof.
  intros b. simpl. unfold Sample.outOfFlowOf.
  repeat case_decide; subst; try done; intros _; vm_compute; auto.
Qed.

Lemma out_of_flow_traversal_is_depth_first_witness :
  ∃ steps,
    DepthFirstOrder (T := Sample.tree) 1%positive steps
    ∧ forEach steps
        (runStep (LU := Sample.arith) (G := Sample.geometry) (Build := Sample.debug)
           Sample.this)
        Sample.initialContext
      = Returns (tt, Sample.stateAfter
                       (layoutOutOfFlowDescendants (LU := Sample.arith)
                          (G := Sample.geometry) (Build := Sample.debug)
                          3 Sample.this 1%positive Sample.initialContext))
    ∧ ∀ log,
        layoutOutOfFlowDescendantsLogged (LU := Sample.arith) (G := Sample.geometry)
          (Build := Sample.debug) 3 Sample.this 1%positive (Sample.initialContext, log)
        = Returns (tt, (Sample.stateAfter
                          (layoutOutOfFlowDescendants (LU := Sample.arith)
                             (G := Sample.geometry) (Build := Sample.debug)
                             3 Sample.this 1%positive Sample.initialContext),
                        log ++ steps)).
Proof.
  apply (out_of_flow_traversal_is_depth_first
           (LU := Sample.arith) (G := Sample.geometry) (Build := Sample.debug)
           3 Sample.this 1%positive Sample.initialContext).
  - exact sample_tree_well_formed.
  - vm_compute. reflexivity.
Defined.

(** The log of that run: box 2, then its descendants 3 (with 8 below it) and
    4, and only then box 5. *)
Lemma sample_traversal_log :
  outcomeMap (fun r => snd (snd r))
    (layoutOutOfFlowDescendantsLogged (LU := Sample.arith) (G := Sample.geometry)
       (Build := Sample.debug) 3 Sample.this 1%positive (Sample.initialContext, []))
  = Returns (flat_map (fun b => [BorderAndPadding b; HorizontalGeometryOf b;
                                 FormattingContextLayout b; VerticalGeometryOf b])
               [2; 3; 8; 4; 5]%positive).
Proof. vm_compute. reflexivity. Qed.

Lemma layoutOutOfFlowDescendants_is_noop_witness :
  layoutOutOfFlowDescendants (LU := Sample.arith) (G := Sample.geometry)
    (Build := Sample.debug) 0 Sample.this 4%positive Sample.initialContext
  = Returns (tt, Sample.initialContext)
  ∧ ∀ log,
      layoutOutOfFlowDescendantsLogged (LU := Sample.arith) (G := Sample.geometry)
        (Build := Sample.debug) 0 Sample.this 4%positive (Sample.initialContext, log)
      = Returns (tt, (Sample.initialContext, log)).
Proof.
  apply (layoutOutOfFlowDescendants_is_noop
           (LU := Sample.arith) (G := Sample.geometry) (Build := Sample.debug)
           0 Sample.this 4%positive Sample.initialContext).
  right. left. reflexivity.
Defined.

Lemma collapsed_margin_assertion_unreachable_witness :
  computeOutOfFlowVerticalGeometry (LU := Sample.arith) (G := Sample.geometry)
    (Build := Sample.debug) 2%positive Sample.initialContext ≠ AssertionFailed
  ∧ computeOutOfFlowVerticalGeometry (LU := Sample.arith) (G := Sample.geometry)
      (Build := Sample.debug) 2%positive Sample.initialContext
    = Returns (tt, withDisplayBox 2%positive
                     (withVerticalGeometry (LU := Sample.arith)
                        (selectedVerticalSolution (G := Sample.geometry)
                           2%positive Sample.initialContext)
                        (displayBoxOf (G := Sample.geometry) Sample.initialContext 2%positive))
                     Sample.initialContext).
Proof.
  apply (collapsed_margin_assertion_unreachable
           (LU := Sample.arith) (G := Sample.geometry) (Build := Sample.debug) 2%positive).
  intros ctx usedHeight. reflexivity.
Defined.

Lemma mapBoxToAncestor_leaves_records_unchanged_witness :
  let run :=
    mapBoxToAncestor (LU := Sample.arith) (G := Sample.geometry) (Build := Sample.debug)
      2 6%positive 1%positive Sample.laidOutContext in
  run = Returns (Display.setTopLeft (LayoutPoint.mk 111 222) (Sample.boxAt 100 200 30 30),
                 Sample.stateAfter run)
  ∧ (∀ b' d, m_layoutToDisplayBox Sample.laidOutContext !! b' = Some d →
             m_layoutToDisplayBox (Sample.stateAfter run) !! b' = Some d)
  ∧ OnlyCreatesRecords (G := Sample.geometry) Sample.laidOutContext (Sample.stateAfter run)
  ∧ LayoutPoint.mk 111 222
    = movedAlong (LU := Sample.arith) (G := Sample.geometry) Sample.laidOutContext
        [3; 2]%positive (LayoutPoint.mk 100 200).
Proof.
  intros run.
  assert (Hrun : run = Returns (Display.setTopLeft (LayoutPoint.mk 111 222)
                                  (Sample.boxAt 100 200 30 30),
                                Sample.stateAfter run))
    by (vm_compute; reflexivity).
  destruct (mapBoxToAncestor_leaves_records_unchanged
              (LU := Sample.arith) (G := Sample.geometry) (Build := Sample.debug)
              2 6%positive 1%positive Sample.laidOutContext _ _ Hrun)
    as (Hkept & Honly & _ & Hmapped & _).
  split; [exact Hrun|]. split; [exact Hkept|]. split; [exact Honly|].
  apply (Hmapped [3; 2]%positive).
  apply (chain_step (T := Sample.tree) _ 3%positive); [discriminate|].
  apply (chain_step (T := Sample.tree) _ 2%positive); [discriminate|].
  apply (chain_ancestor (T := Sample.tree)).
Defined.

Lemma vertical_non_collapsed_margin_equals_margin_witness :
  ∃ d,
    m_layoutToDisplayBox
      (Sample.stateAfter
         (computeOutOfFlowVerticalGeometry (LU := Sample.arith) (G := Sample.geometry)
            (Build := Sample.debug) 2%positive Sample.initialContext))
      !! 2%positive = Some d
    ∧ Display.verticalNonCollapsedMargin d = Display.verticalMargin d
    ∧ Display.verticalMargin d = VerticalEdges.mk 5 5.
Proof.
  apply (vertical_non_collapsed_margin_equals_margin
           (LU := Sample.arith) (G := Sample.geometry) (Build := Sample.debug)
           2%positive Sample.initialContext).
  vm_compute. reflexivity.
Defined.

(** * Further properties of the resolvers *)

Section ResolverProperties.
Context {LU : LayoutUnitOps} {T : BoxTree} {FS : Type}
        {G : Collaborators T FS} {Build : BuildConfiguration}.
Implicit Types (ctx : LayoutContext FS) (b cb : BoxId).

Lemma lookup_withDisplayBox_ne b b' (d : Display.Box) ctx :
  b ≠ b' →
  m_layoutToDisplayBox (withDisplayBox b d ctx) !! b' = m_layoutToDisplayBox ctx !! b'.
Proof. intros Hne. unfold withDisplayBox; simpl. by rewrite lookup_insert_ne. Qed.

Lemma lookup_ensured_ne b b' ctx :
  b ≠ b' →
  m_layoutToDisplayBox (ensured b ctx) !! b' = m_layoutToDisplayBox ctx !! b'.
Proof. intros Hne. unfold ensured; simpl. by rewrite lookup_insert_ne. Qed.

Lemma contentBoxWidth_withHorizontalGeometry (g : HorizontalGeometry.t) (d : Display.Box) :
  Display.contentBoxWidth (withHorizontalGeometry g d) = widthOf g.
Proof. reflexivity. Qed.

(** X1. The width the horizontal resolver stores is the unconstrained width
    clamped: first capped by the width of the max-constrained solution, if
    max-width resolves, then raised to the width of the min-constrained
    solution, if min-width resolves. *)
Theorem stored_width_is_clamped this b cb ctx :
  containingBlock b = Some cb →
  ∃ ctx' d,
    computeOutOfFlowHorizontalGeometry this b ctx = Returns (tt, ctx')
    ∧ m_layoutToDisplayBox ctx' !! b = Some d
    ∧ let resolve length := computedValueIfNotAuto length (containingBlockWidthIn ctx cb) in
      let capped :=
        match resolve (logicalMaxWidth b) with
        | Some maxWidth =>
            Z.min (widthOf (unconstrainedSolution this b ctx))
                  (widthOf (constrainedSolution this b cb ctx maxWidth))
        | None => widthOf (unconstrainedSolution this b ctx)
        end in
      Display.contentBoxWidth d
      = match resolve (logicalMinWidth b) with
        | Some minWidth => Z.max capped (widthOf (constrainedSolution this b cb ctx minWidth))
        | None => capped
        end.
Proof.
  intros Hcb.
  eexists _, _. split; [by apply computeOutOfFlowHorizontalGeometry_returns|].
  split; [apply lookup_withDisplayBox|].
  cbv beta zeta. rewrite contentBoxWidth_withHorizontalGeometry.
  unfold selectedSolution, solutionAfterMax.
  destruct (computedValueIfNotAuto (logicalMaxWidth b) _) as [maxWidth|];
    destruct (computedValueIfNotAuto (logicalMinWidth b) _) as [minWidth|];
    cbv zeta;
    repeat match goal with
      | |- context [(?l >? ?r)%Z] => destruct (Z.gtb_spec l r)
      | |- context [(?l <? ?r)%Z] => destruct (Z.ltb_spec l r)
      end; lia.
Qed.

(** X2. When the unconstrained solution is within the bounds that resolve
    (not wider than the max-constrained solution, not narrower than the
    min-constrained one), all four stored components are those of the
    unconstrained solution. *)
Theorem unconstrained_solution_kept_within_bounds this b cb ctx :
  containingBlock b = Some cb →
  (∀ maxWidth,
     computedValueIfNotAuto (logicalMaxWidth b) (containingBlockWidthIn ctx cb) = Some maxWidth →
     (widthOf (unconstrainedSolution this b ctx)
      ≤ widthOf (constrainedSolution this b cb ctx maxWidth))%Z) →
  (∀ minWidth,
     computedValueIfNotAuto (logicalMinWidth b) (containingBlockWidthIn ctx cb) = Some minWidth →
     (widthOf (constrainedSolution this b cb ctx minWidth)
      ≤ widthOf (unconstrainedSolution this b ctx))%Z) →
  ∃ ctx',
    computeOutOfFlowHorizontalGeometry this b ctx = Returns (tt, ctx')
    ∧ m_layoutToDisplayBox ctx' !! b
      = Some (withHorizontalGeometry (unconstrainedSolution this b ctx) (displayBoxOf ctx b)).
Proof.
  intros Hcb Hmax Hmin.
  eexists. split; [by apply computeOutOfFlowHorizontalGeometry_returns|].
  rewrite lookup_withDisplayBox. do 2 f_equal.
  assert (HafterMax : solutionAfterMax this b cb ctx = unconstrainedSolution this b ctx).
  { unfold solutionAfterMax.
    destruct (computedValueIfNotAuto (logicalMaxWidth b) _) as [maxWidth|] eqn:Hresolved;
      [|done].
    specialize (Hmax maxWidth eq_refl).
    destruct (Z.gtb_spec (widthOf (unconstrainedSolution this b ctx))
                         (widthOf (constrainedSolution this b cb ctx maxWidth)));
      [lia | done]. }
  unfold selectedSolution. rewrite HafterMax.
  destruct (computedValueIfNotAuto (logicalMinWidth b) _) as [minWidth|] eqn:Hresolved;
    [|done].
  specialize (Hmin minWidth eq_refl).
  destruct (Z.ltb_spec (widthOf (unconstrainedSolution this b ctx))
                       (widthOf (constrainedSolution this b cb ctx minWidth)));
    [lia | done].
Qed.

(** X3. The horizontal resolver touches nothing but the left offset, the
    content width and the two horizontal margin records of the box: the
    other fields of its record, the record of every other box and the rest
    of the pass state are as before, and the only record that can be new,
    apart from the one of the box, is the one of its containing block. *)
Theorem horizontal_resolver_frame this b cb ctx :
  containingBlock b = Some cb →
  ∃ ctx' d,
    computeOutOfFlowHorizontalGeometry this b ctx = Returns (tt, ctx')
    ∧ m_layoutToDisplayBox ctx' !! b = Some d
    ∧ Display.top d = Display.top (displayBoxOf ctx b)
    ∧ Display.contentBoxHeight d = Display.contentBoxHeight (displayBoxOf ctx b)
    ∧ Display.verticalMargin d = Display.verticalMargin (displayBoxOf ctx b)
    ∧ Display.verticalNonCollapsedMargin d
      = Display.verticalNonCollapsedMargin (displayBoxOf ctx b)
    ∧ Display.border d = Display.border (displayBoxOf ctx b)
    ∧ Display.padding d = Display.padding (displayBoxOf ctx b)
    ∧ (∀ b', b' ≠ b → b' ≠ cb →
         m_layoutToDisplayBox ctx' !! b' = m_layoutToDisplayBox ctx !! b')
    ∧ (cb ≠ b → m_layoutToDisplayBox ctx' !! cb = Some (displayBoxOf ctx cb))
    ∧ m_formattingStates ctx' = m_formattingStates ctx.
Proof.
  intros Hcb.
  eexists _, _. split; [by apply computeOutOfFlowHorizontalGeometry_returns|].
  split; [apply lookup_withDisplayBox|].
  repeat (split; [reflexivity|]).
  split; [|split; [|reflexivity]].
  - intros b' Hb Hcb'.
    rewrite lookup_withDisplayBox_ne by done. by rewrite lookup_ensured_ne.
  - intros Hne. rewrite lookup_withDisplayBox_ne by done. apply lookup_ensured.
Qed.

Lemma computeOutOfFlowHorizontalGeometry_null this b ctx :
  containingBlock b = None →
  computeOutOfFlowHorizontalGeometry this b ctx = NullDereference.
Proof.
  intros Hnull. unfold computeOutOfFlowHorizontalGeometry.
  cbv [bind ret getContext deref stop]. by rewrite Hnull.
Qed.

(** X4. The horizontal resolver dereferences the containing block of the
    box: for a box without one it stops there, in every build, and it
    returns for every box that has one. *)
Theorem horizontal_resolver_needs_containing_block this b ctx :
  (containingBlock b = None →
   computeOutOfFlowHorizontalGeometry this b ctx = NullDereference)
  ∧ (is_Some (containingBlock b) →
     ∃ ctx', computeOutOfFlowHorizontalGeometry this b ctx = Returns (tt, ctx')).
Proof.
  split.
  - apply computeOutOfFlowHorizontalGeometry_null.
  - intros [cb Hcb]. eexists. by apply computeOutOfFlowHorizontalGeometry_returns.
Qed.

(** X5. Whenever the vertical resolver returns, the height it stored is the
    unconstrained height clamped: capped by the height of the max-constrained
    solution, if there is a max-height, then raised to the height of the
    min-constrained solution, if there is a min-height. *)
Theorem stored_height_is_clamped b ctx ctx' :
  computeOutOfFlowVerticalGeometry b ctx = Returns (tt, ctx') →
  ∃ d,
    m_layoutToDisplayBox ctx' !! b = Some d
    ∧ let capped :=
        match computedMaxHeight ctx b with
        | Some maxHeight =>
            Z.min (heightOf (outOfFlowVerticalGeometry ctx b None))
                  (heightOf (outOfFlowVerticalGeometry ctx b (Some maxHeight)))
        | None => heightOf (outOfFlowVerticalGeometry ctx b None)
        end in
      Display.contentBoxHeight d
      = match computedMinHeight ctx b with
        | Some minHeight =>
            Z.max capped (heightOf (outOfFlowVerticalGeometry ctx b (Some minHeight)))
        | None => capped
        end.
Proof.
  rewrite computeOutOfFlowVerticalGeometry_outcome.
  destruct (assertionsEnabled && _); [discriminate|].
  intros [= <-].
  eexists. split; [apply lookup_withDisplayBox|].
  cbv zeta.
  change (Display.contentBoxHeight (withVerticalGeometry ?g ?d)) with (heightOf g).
  unfold selectedVerticalSolution.
  destruct (computedMaxHeight ctx b) as [maxHeight|];
    destruct (computedMinHeight ctx b) as [minHeight|];
    cbv zeta;
    repeat match goal with
      | |- context [(?l >? ?r)%Z] => destruct (Z.gtb_spec l r)
      | |- context [(?l <? ?r)%Z] => destruct (Z.ltb_spec l r)
      end; lia.
Qed.

(** X6. Whenever the vertical resolver returns, the record of the box has
    the top offset of the selected solution plus its top margin, and its
    left offset, content width, horizontal margin records, border and
    padding are as before; the record of every other box is as before, no
    record is created for another box, and the rest of the pass state is
    the same. *)
Theorem vertical_resolver_frame b ctx ctx' :
  computeOutOfFlowVerticalGeometry b ctx = Returns (tt, ctx') →
  ∃ d,
    m_layoutToDisplayBox ctx' !! b = Some d
    ∧ Display.top d
      = (let selected := selectedVerticalSolution b ctx in
         layoutUnitPlus (VerticalGeometry.top selected)
           (VerticalEdges.top
              (HeightAndMargin.margin (VerticalGeometry.heightAndMargin selected))))
    ∧ Display.left d = Display.left (displayBoxOf ctx b)
    ∧ Display.contentBoxWidth d = Display.contentBoxWidth (displayBoxOf ctx b)
    ∧ Display.horizontalMargin d = Display.horizontalMargin (displayBoxOf ctx b)
    ∧ Display.horizontalNonComputedMargin d
      = Display.horizontalNonComputedMargin (displayBoxOf ctx b)
    ∧ Display.border d = Display.border (displayBoxOf ctx b)
    ∧ Display.padding d = Display.padding (displayBoxOf ctx b)
    ∧ (∀ b', b' ≠ b → m_layoutToDisplayBox ctx' !! b' = m_layoutToDisplayBox ctx !! b')
    ∧ m_formattingStates ctx' = m_formattingStates ctx.
Proof.
  rewrite computeOutOfFlowVerticalGeometry_outcome.
  destruct (assertionsEnabled && _); [discriminate|].
  intros [= <-].
  eexists. split; [apply lookup_withDisplayBox|].
  repeat (split; [reflexivity|]).
  split; [|reflexivity].
  intros b' Hne. by rewrite lookup_withDisplayBox_ne.
Qed.

(** X7. The vertical resolver returns exactly when assertions are compiled
    out or the selected solution carries no collapsed margin; otherwise it
    stops at its assertion.  It never stops for another reason. *)
Theorem vertical_resolver_returns_iff b ctx :
  ((∃ ctx', computeOutOfFlowVerticalGeometry b ctx = Returns (tt, ctx'))
   ↔ assertionsEnabled = false
     ∨ HeightAndMargin.collapsedMargin
         (VerticalGeometry.heightAndMargin (selectedVerticalSolution b ctx)) = None)
  ∧ ((∃ ctx', computeOutOfFlowVerticalGeometry b ctx = Returns (tt, ctx'))
     ∨ computeOutOfFlowVerticalGeometry b ctx = AssertionFailed).
Proof.
  rewrite computeOutOfFlowVerticalGeometry_outcome.
  destruct assertionsEnabled; simpl.
  - destruct (HeightAndMargin.collapsedMargin _) as [collapsed|] eqn:Hcollapsed.
    + rewrite bool_decide_eq_true_2 by eauto. split; [|by right].
      split; [intros [? ?]; discriminate | intros [?|?]; discriminate].
    + rewrite bool_decide_eq_false_2 by (intros [? ?]; discriminate).
      split; [|left; eauto]. split; eauto.
  - split; [|left; eauto]. split; eauto.
Qed.

Lemma updateDisplayBox_ensured b (setter : Display.Box → Display.Box) ctx :
  updateDisplayBox b setter (ensured b ctx)
  = Returns (tt, withDisplayBox b (setter (displayBoxOf ctx b)) ctx).
Proof. apply updateDisplayBox_withDisplayBox. Qed.

(** X8. [computeBorderAndPadding] always returns.  It stores the border
    Geometry computes once the record of the box exists, and the padding
    Geometry computes once that border is stored; the position, sizes and
    margins of the record, the record of every other box and the rest of
    the pass state are as before. *)
Theorem computeBorderAndPadding_stores_border_then_padding b ctx :
  ∃ ctx' d,
    computeBorderAndPadding b ctx = Returns (tt, ctx')
    ∧ m_layoutToDisplayBox ctx' !! b = Some d
    ∧ Display.border d = computedBorder (ensured b ctx) b
    ∧ Display.padding d
      = computedPadding
          (withDisplayBox b
             (Display.setBorder (computedBorder (ensured b ctx) b) (displayBoxOf ctx b))
             ctx) b
    ∧ Display.topLeft d = Display.topLeft (displayBoxOf ctx b)
    ∧ Display.contentBoxWidth d = Display.contentBoxWidth (displayBoxOf ctx b)
    ∧ Display.contentBoxHeight d = Display.contentBoxHeight (displayBoxOf ctx b)
    ∧ Display.horizontalMargin d = Display.horizontalMargin (displayBoxOf ctx b)
    ∧ Display.verticalMargin d = Display.verticalMargin (displayBoxOf ctx b)
    ∧ Display.horizontalNonComputedMargin d
      = Display.horizontalNonComputedMargin (displayBoxOf ctx b)
    ∧ Display.verticalNonCollapsedMargin d
      = Display.verticalNonCollapsedMargin (displayBoxOf ctx b)
    ∧ (∀ b', b' ≠ b → m_layoutToDisplayBox ctx' !! b' = m_layoutToDisplayBox ctx !! b')
    ∧ m_formattingStates ctx' = m_formattingStates ctx.
Proof.
  unfold computeBorderAndPadding. cbv [bind getContext].
  rewrite displayBoxForLayoutBox_ensures. cbv beta iota.
  rewrite updateDisplayBox_ensured. cbv beta iota.
  rewrite updateDisplayBox_withDisplayBox.
  eexists _, _. split; [reflexivity|].
  split; [apply lookup_withDisplayBox|].
  repeat (split; [reflexivity|]).
  split; [|reflexivity].
  intros b' Hne. by rewrite lookup_withDisplayBox_ne.
Qed.

End ResolverProperties.

(** * Further properties of the coordinate mapper *)

Section MapperProperties.
Context {LU : LayoutUnitOps} {T : BoxTree} {FS : Type}
        {G : Collaborators T FS} {Build : BuildConfiguration}.
Implicit Types (ctx : LayoutContext FS) (b cb : BoxId).

(** The state the loop leaves along a chain: the records of the boxes of
    the chain exist, created in the order of the chain. *)
Lemma walkToAncestor_chain_state ancestor start chain stopAt :
  ContainingBlockChain ancestor start chain stopAt →
  ∀ fuel position ctx,
    length chain ≤ fuel →
    walkToAncestor fuel ancestor start position ctx
    = Returns ((stopAt, movedAlong ctx chain position),
               fold_left (fun ctx c => ensured c ctx) chain ctx).
Proof.
  induction 1 as [| |c chain stopAt Hne Hchain IH]; intros fuel position ctx Hfuel.
  - by destruct fuel.
  - destruct fuel; simpl; by rewrite decide_True.
  - destruct fuel as [|fuel]; simpl in Hfuel; [lia|].
    simpl. rewrite decide_False by done.
    unfold bind. rewrite displayBoxForLayoutBox_ensures.
    rewrite IH by lia.
    by rewrite (movedAlong_same_records ctx) by (intros; apply displayBoxOf_ensured).
Qed.

Lemma ensured_along_only_creates_records chain ctx :
  OnlyCreatesRecords ctx (fold_left (fun ctx c => ensured c ctx) chain ctx).
Proof.
  revert ctx. induction chain as [|c chain IH]; intros ctx; simpl.
  - apply OnlyCreatesRecords_refl.
  - eapply OnlyCreatesRecords_trans; [apply OnlyCreatesRecords_ensured | apply IH].
Qed.

Lemma chain_through_intermediate middle ancestor start inner outer stopAt :
  ContainingBlockChain middle start inner (Some middle) →
  (∀ c, c ∈ inner → c ≠ ancestor) →
  ContainingBlockChain ancestor (Some middle) outer stopAt →
  ContainingBlockChain ancestor start (inner ++ outer) stopAt.
Proof.
  intros Hinner. remember (Some middle) as stopMiddle eqn:Hstop.
  induction Hinner as [| |c chain stopInner Hne Hchain IH]; intros Havoid Houter.
  - discriminate.
  - done.
  - simpl. apply chain_step.
    + apply Havoid. left.
    + apply IH; [done | | done]. intros c' Hc'. apply Havoid. by right.
Qed.

(** X9. Mapping a position from a container into that same container is
    the identity: the position comes back as it is and the pass state is
    untouched, for every iteration budget and in every build. *)
Theorem mapCoordinateToAncestor_to_itself fuel (position : Position) cb ctx :
  mapCoordinateToAncestor fuel position cb cb ctx = Returns (position, ctx).
Proof.
  unfold mapCoordinateToAncestor, bind.
  destruct fuel; simpl; by rewrite decide_True.
Qed.

(** X10. Mapping composes along the containing-block chain: mapping a
    position into an intermediate container and the result from there into
    the ancestor gives the same position, and leaves the same pass state,
    as mapping it into the ancestor at once. *)
Theorem mapCoordinateToAncestor_composes
    fuel (position : Position) cb middle ancestor inner outer ctx :
  ContainingBlockChain middle (Some cb) inner (Some middle) →
  (∀ c, c ∈ inner → c ≠ ancestor) →
  ContainingBlockChain ancestor (Some middle) outer (Some ancestor) →
  length inner + length outer ≤ fuel →
  ∃ halfway ctx1 mapped ctx2,
    mapCoordinateToAncestor fuel position cb middle ctx = Returns (halfway, ctx1)
    ∧ mapCoordinateToAncestor fuel halfway middle ancestor ctx1 = Returns (mapped, ctx2)
    ∧ mapCoordinateToAncestor fuel position cb ancestor ctx = Returns (mapped, ctx2).
Proof.
  intros Hinner Havoid Houter Hfuel.
  pose proof (chain_through_intermediate _ _ _ _ _ _ Hinner Havoid Houter) as Hwhole.
  eexists _, _, _, _. unfold mapCoordinateToAncestor, bind.
  rewrite (walkToAncestor_chain_state _ _ _ _ Hinner) by lia.
  rewrite (walkToAncestor_chain_state _ _ _ _ Houter) by lia.
  rewrite (walkToAncestor_chain_state _ _ _ _ Hwhole) by (rewrite length_app; lia).
  simpl. split; [reflexivity|]. split; [reflexivity|].
  unfold ret. rewrite List.fold_left_app. do 2 f_equal.
  unfold movedAlong at 1. rewrite List.fold_left_app.
  fold (movedAlong ctx inner position).
  symmetry. apply movedAlong_same_records.
  intros c. apply OnlyCreatesRecords_displayBoxOf, ensured_along_only_creates_records.
Qed.

(** X11. For a box that has a containing block, [mapTopLeftToAncestor] is
    [mapBoxToAncestor] followed by reading the top-left of the record it
    returns: the two stop in the same cases, and when they return they
    return the same position and leave the same pass state. *)
Theorem mapTopLeftToAncestor_agrees_with_mapBoxToAncestor fuel b ancestor ctx :
  is_Some (containingBlock b) →
  mapTopLeftToAncestor fuel b ancestor ctx
  = outcomeMap (fun r => (Display.topLeft (fst r), snd r))
      (mapBoxToAncestor fuel b ancestor ctx).
Proof.
  intros [cb Hcb].
  unfold mapTopLeftToAncestor, mapBoxToAncestor, mapCoordinateToAncestor, bind.
  destruct (ASSERT (isDescendantOf b ancestor) ctx) as [[[] ctx0]| | |] eqn:Hassert;
    try reflexivity.
  assert (ctx0 = ctx) as ->.
  { unfold ASSERT in Hassert. destruct (assertionsEnabled && _); congruence. }
  rewrite displayBoxForLayoutBox_ensures, Hcb. simpl.
  destruct (walkToAncestor fuel ancestor (Some cb)
              (Display.topLeft (displayBoxOf ctx b)) (ensured b ctx))
    as [[[stopAt moved] ctx1]| | |] eqn:Hwalk; try reflexivity.
  apply walkToAncestor_only_creates_records in Hwalk.
  simpl. destruct stopAt as [c|].
  - by rewrite (readDisplayBox_after_ensured b ctx) by done.
  - unfold ASSERT_NOT_REACHED, ASSERT.
    destruct (assertionsEnabled && negb false); [reflexivity|].
    by rewrite (readDisplayBox_after_ensured b ctx) by done.
Qed.

End MapperProperties.

(** * Further properties of the traversal *)

Section TraversalProperties.
Context {LU : LayoutUnitOps} {T : BoxTree} {FS : Type}
        {G : Collaborators T FS} {Build : BuildConfiguration}.
Implicit Types (ctx : LayoutContext FS) (b : BoxId).

Lemma forEach_returns_each {A} (body : A → M (LayoutContext FS) unit) (xs : list A) :
  ∀ ctx ctx',
    forEach xs body ctx = Returns (tt, ctx') →
    ∀ x, x ∈ xs → ∃ c c', body x c = Returns (tt, c').
Proof.
  induction xs as [|x0 xs IH]; intros ctx ctx' Hrun x Hx.
  - by apply elem_of_nil in Hx.
  - simpl in Hrun. unfold bind in Hrun.
    destruct (body x0 ctx) as [[[] ctx1]| | |] eqn:Hbody; try discriminate.
    apply elem_of_cons in Hx as [->|Hx]; eauto.
Qed.

Lemma layoutOutOfFlowBox_returns_only_if
    (recurse : BoxId → M (LayoutContext FS) unit) this (o : BoxId) ctx ctx' :
  layoutOutOfFlowBox recurse this o ctx = Returns (tt, ctx') →
  is_Some (containingBlock o)
  ∧ (assertionsEnabled = true → establishesFormattingContext o = true).
Proof.
  unfold layoutOutOfFlowBox, bind, collaborator.
  unfold ASSERT at 1.
  destruct (assertionsEnabled && negb (establishesFormattingContext o)) eqn:Hassert;
    [discriminate|].
  destruct (computeBorderAndPadding_returns o (formattingContext o ctx)) as [ctx1 ->].
  intros Hrun. split.
  - destruct (containingBlock o) as [cb|] eqn:Hcb; [eauto|].
    by rewrite computeOutOfFlowHorizontalGeometry_null in Hrun.
  - intros Hdebug. rewrite Hdebug in Hassert. simpl in Hassert.
    by apply negb_false_iff in Hassert.
Qed.

(** X12. A traversal that returns has met the preconditions of its loop
    body: every out-of-flow descendant of a box that passes the early exits
    has a containing block, and, when assertions are compiled in,
    establishes a formatting context. *)
Theorem returning_traversal_met_its_preconditions fuel this b ctx ctx' :
  isPositioned b = true ∨ isInitialContainingBlock b = true →
  isContainer b = true →
  hasChild b = true →
  layoutOutOfFlowDescendants fuel this b ctx = Returns (tt, ctx') →
  ∀ o, o ∈ outOfFlowDescendants b →
       is_Some (containingBlock o)
       ∧ (assertionsEnabled = true → establishesFormattingContext o = true).
Proof.
  intros Hpositioned Hcontainer Hchild Hrun o Ho.
  assert (Hgate : negb (isPositioned b) && negb (isInitialContainingBlock b) = false)
    by (destruct Hpositioned as [-> | ->]; simpl; by rewrite ?andb_false_r).
  destruct fuel;
    rewrite ?layoutOutOfFlowDescendants_O, ?layoutOutOfFlowDescendants_S in Hrun;
    rewrite Hgate, Hcontainer, Hchild in Hrun; simpl in Hrun;
    destruct (forEach_returns_each _ _ _ _ Hrun o Ho) as (c & c' & Hbody);
    by apply layoutOutOfFlowBox_returns_only_if in Hbody.
Qed.

End TraversalProperties.

(** * In-flow positioned children and the validator *)

Section FlowProperties.
Context {LU : LayoutUnitOps} {T : BoxTree} {Q : TraversalQueries} {FS : Type}
        {G : Collaborators T FS} {P : InFlowPositioning FS}
        {Build : BuildConfiguration}.
Implicit Types (ctx : LayoutContext FS) (b cb : BoxId).

Lemma forEach_in_flow_positioned (boxes : list BoxId) ctx :
  forEach boxes (fun layoutBox =>
    if negb (isInFlowPositioned layoutBox) then ret tt
    else collaborator (computeInFlowPositionedPosition layoutBox)) ctx
  = Returns (tt, positionedInTurn
                   (filter (fun o => isInFlowPositioned o = true) boxes) ctx).
Proof.
  revert ctx. induction boxes as [|o boxes IH]; intros ctx; [reflexivity|].
  simpl. unfold bind at 1.
  destruct (isInFlowPositioned o) eqn:Ho; simpl.
  - rewrite filter_cons_True by done. unfold collaborator at 1. by rewrite IH.
  - rewrite filter_cons_False by (rewrite Ho; discriminate). by rewrite IH.
Qed.

(** X13. [placeInFlowPositionedChildren] always returns.  For a container
    that establishes a formatting context and is not the root of this one
    it changes nothing; for any other container, the root included, the
    pass state it leaves is the one obtained by running
    [computeInFlowPositionedPosition] for the in-flow positioned children,
    and only those, in child order. *)
Theorem placeInFlowPositionedChildren_places_in_flow_children this (container : BoxId) ctx :
  placeInFlowPositionedChildren this container ctx
  = Returns (tt,
             if establishesFormattingContext container
                && negb (bool_decide (container = m_root this))
             then ctx
             else positionedInTurn
                    (filter (fun o => isInFlowPositioned o = true) (children container))
                    ctx).
Proof.
  unfold placeInFlowPositionedChildren.
  destruct (establishesFormattingContext container && _); [reflexivity|].
  apply forEach_in_flow_positioned.
Qed.

(** ** The validator *)

Lemma validateGeometryConstraintsAfterLayout_unfold this :
  validateGeometryConstraintsAfterLayout this
  = if negb (isContainer (m_root this)) then ret tt
    else forEach (descendants (m_root this)) (validateBox this).
Proof. reflexivity. Qed.

Lemma BoxModelHolds_same_records ctx ctx' b :
  (∀ c, displayBoxOf ctx' c = displayBoxOf ctx c) →
  BoxModelHolds ctx' b ↔ BoxModelHolds ctx b.
Proof.
  intros Hsame. unfold BoxModelHolds.
  split; intros (cb & Hcb & Hwidth & Hheight); exists cb;
    (split; [done|]); rewrite ?Hsame in *; done.
Qed.

(** What the loop body does for a box of the formatting context that has a
    containing block. *)
Lemma validateBox_outcome this b cb ctx :
  formattingContextRoot b = m_root this →
  containingBlock b = Some cb →
  validateBox this b ctx
  = if assertionsEnabled && widthIsChecked b
       && negb (horizontalExtent (displayBoxOf ctx b)
                =? Display.contentBoxWidth (displayBoxOf ctx cb))%Z
    then AssertionFailed
    else if assertionsEnabled && heightIsChecked b
            && negb (verticalExtent (displayBoxOf ctx b)
                     =? Display.contentBoxHeight (displayBoxOf ctx cb))%Z
    then AssertionFailed
    else Returns (tt, ensured b (ensured cb ctx)).
Proof.
  intros Hroot Hcb. unfold validateBox, widthIsChecked, heightIsChecked.
  rewrite bool_decide_eq_true_2 by done. simpl.
  unfold bind at 1. rewrite Hcb. simpl.
  unfold bind at 1. rewrite displayBoxForLayoutBox_ensures.
  unfold bind at 1. rewrite displayBoxForLayoutBox_ensures.
  assert (HreadCb : readDisplayBox cb (ensured b (ensured cb ctx))
                    = Returns (displayBoxOf ctx cb, ensured b (ensured cb ctx))).
  { unfold readDisplayBox.
    by rewrite (lookup_ensured_stored b cb (ensured cb ctx) (displayBoxOf ctx cb))
      by apply lookup_ensured. }
  assert (HreadB : readDisplayBox b (ensured b (ensured cb ctx))
                   = Returns (displayBoxOf ctx b, ensured b (ensured cb ctx))).
  { unfold readDisplayBox. by rewrite lookup_ensured, displayBoxOf_ensured. }
  unfold bind, ASSERT, ret.
  destruct assertionsEnabled;
    destruct ((isBlockLevelBox b || isOutOfFlowPositioned b) && negb (replaced b));
    destruct (isOutOfFlowPositioned b && negb (replaced b));
    cbn [andb negb]; cbv beta iota zeta;
    rewrite ?HreadCb; cbv beta iota zeta;
    rewrite ?HreadB; cbv beta iota zeta;
    rewrite ?negb_involutive;
    try destruct (horizontalExtent (displayBoxOf ctx b)
                  =? Display.contentBoxWidth (displayBoxOf ctx cb))%Z;
    cbn [andb negb]; cbv beta iota zeta;
    rewrite ?HreadCb; cbv beta iota zeta;
    rewrite ?HreadB; cbv beta iota zeta;
    rewrite ?negb_involutive;
    try destruct (verticalExtent (displayBoxOf ctx b)
                  =? Display.contentBoxHeight (displayBoxOf ctx cb))%Z;
    reflexivity.
Qed.

Lemma validateBox_skips this b ctx :
  formattingContextRoot b ≠ m_root this →
  validateBox this b ctx = Returns (tt, ctx).
Proof.
  intros Hother. unfold validateBox. by rewrite bool_decide_eq_false_2.
Qed.

Lemma validateBox_null this b ctx :
  formattingContextRoot b = m_root this →
  containingBlock b = None →
  validateBox this b ctx = NullDereference.
Proof.
  intros Hroot Hnull. unfold validateBox.
  rewrite bool_decide_eq_true_2 by done. simpl.
  unfold bind at 1. by rewrite Hnull.
Qed.

Lemma validateBox_only_creates_records this b ctx ctx' :
  validateBox this b ctx = Returns (tt, ctx') → OnlyCreatesRecords ctx ctx'.
Proof.
  destruct (decide (formattingContextRoot b = m_root this)) as [Hroot|Hother].
  - destruct (containingBlock b) as [cb|] eqn:Hcb.
    + rewrite (validateBox_outcome this b cb) by done.
      repeat match goal with
        | |- context [if ?c then _ else _] => destruct c; try discriminate
        end.
      intros [= <-].
      eapply OnlyCreatesRecords_trans; apply OnlyCreatesRecords_ensured.
    + by rewrite validateBox_null.
  - rewrite validateBox_skips by done. intros [= <-]. apply OnlyCreatesRecords_refl.
Qed.

Lemma validateBox_returns_iff this b ctx :
  assertionsEnabled = true →
  (∃ ctx', validateBox this b ctx = Returns (tt, ctx'))
  ↔ (formattingContextRoot b = m_root this → BoxModelHolds ctx b).
Proof.
  intros Hdebug.
  destruct (decide (formattingContextRoot b = m_root this)) as [Hroot|Hother].
  - destruct (containingBlock b) as [cb|] eqn:Hcb.
    + rewrite (validateBox_outcome this b cb) by done. rewrite Hdebug. simpl.
      unfold BoxModelHolds. rewrite Hcb.
      destruct (Z.eqb_spec (horizontalExtent (displayBoxOf ctx b))
                           (Display.contentBoxWidth (displayBoxOf ctx cb)))
        as [Hwidth|Hwidth];
        destruct (Z.eqb_spec (verticalExtent (displayBoxOf ctx b))
                             (Display.contentBoxHeight (displayBoxOf ctx cb)))
        as [Hheight|Hheight];
        destruct (widthIsChecked b); destruct (heightIsChecked b); simpl;
        (split;
         [ intros [ctx' Hrun]; try discriminate; intros _; exists cb; by repeat split
         | intros Hholds; try (by eexists);
           destruct (Hholds Hroot) as (cb' & [= <-] & Hw & Hh);
           try (by specialize (Hw eq_refl)); by specialize (Hh eq_refl) ]).
    + rewrite validateBox_null by done. split.
      * intros [? ?]; discriminate.
      * intros Hholds. destruct (Hholds Hroot) as (cb & Hsome & _). congruence.
  - rewrite validateBox_skips by done. split; [done | eauto].
Qed.

(** X14. In a build with assertions, the validator returns exactly when
    the box model holds for every descendant of the root that belongs to the
    formatting context of the root (or the root is not a container): each
    such box has a containing block; if it is block-level or out-of-flow and
    not replaced, its margins, borders, paddings and content width add up to
    the content width of its containing block; if it is out-of-flow and not
    replaced, its top, margins, borders, paddings and content height add up
    to the content height of its containing block. *)
Theorem validator_passes_iff_box_model_holds this ctx :
  assertionsEnabled = true →
  (∃ ctx', validateGeometryConstraintsAfterLayout this ctx = Returns (tt, ctx'))
  ↔ (isContainer (m_root this) = true → ∀ b, validated this b → BoxModelHolds ctx b).
Proof.
  intros Hdebug. rewrite validateGeometryConstraintsAfterLayout_unfold.
  destruct (isContainer (m_root this)); simpl; [|split; [done | eauto]].
  unfold validated.
  generalize (descendants (m_root this)) as boxes. intros boxes. revert ctx.
  induction boxes as [|o boxes IH]; intros ctx; simpl.
  - split; [|eauto]. intros _ _ b [Hb _]. by apply elem_of_nil in Hb.
  - unfold bind at 1. split.
    + intros [ctx' Hrun] _ b [Hb Hroot].
      destruct (validateBox this o ctx) as [[[] ctx1]| | |] eqn:Hbox; try discriminate.
      apply elem_of_cons in Hb as [->|Hb].
      * by apply (validateBox_returns_iff this o ctx Hdebug); eauto.
      * apply validateBox_only_creates_records in Hbox.
        apply (BoxModelHolds_same_records ctx ctx1);
          [intros c; by apply OnlyCreatesRecords_displayBoxOf|].
        apply IH; eauto.
    + intros Hall.
      destruct (proj2 (validateBox_returns_iff this o ctx Hdebug)) as [ctx1 Hbox].
      { intros Hroot. apply Hall; [done|]. split; [left | done]. }
      rewrite Hbox. apply IH. intros _ b [Hb Hroot].
      apply validateBox_only_creates_records in Hbox.
      apply (BoxModelHolds_same_records ctx ctx1);
        [intros c; by apply OnlyCreatesRecords_displayBoxOf|].
      apply Hall; [done|]. split; [by right | done].
Qed.

(** X15. The validator never changes a record: whenever it returns, every
    record stored before is stored unchanged, the only new records are fresh
    ones for boxes that had none, and the rest of the pass state is the
    same. *)
Theorem validator_only_creates_records this ctx ctx' :
  validateGeometryConstraintsAfterLayout this ctx = Returns (tt, ctx') →
  OnlyCreatesRecords ctx ctx'.
Proof.
  rewrite validateGeometryConstraintsAfterLayout_unfold.
  destruct (isContainer (m_root this)); simpl;
    [|intros [= <-]; apply OnlyCreatesRecords_refl].
  generalize (descendants (m_root this)) as boxes. intros boxes. revert ctx.
  induction boxes as [|o boxes IH]; intros ctx; simpl.
  - intros [= <-]. apply OnlyCreatesRecords_refl.
  - unfold bind at 1.
    destruct (validateBox this o ctx) as [[[] ctx1]| | |] eqn:Hbox; try discriminate.
    intros Hrest. eapply OnlyCreatesRecords_trans.
    + by eapply validateBox_only_creates_records.
    + by apply IH.
Qed.

(** X16. What the validator reads after the horizontal resolver ran for a
    box: the sum it compares is made of the margins and width of the
    selected solution and of the border and padding the record had before,
    and the width it compares with is the containing-block width the
    resolver resolved max-width and min-width against. *)
Theorem validator_reads_what_horizontal_resolver_stored this b cb ctx :
  containingBlock b = Some cb →
  cb ≠ b →
  ∃ ctx',
    computeOutOfFlowHorizontalGeometry this b ctx = Returns (tt, ctx')
    ∧ horizontalExtent (displayBoxOf ctx' b)
      = (let widthAndMargin :=
           HorizontalGeometry.widthAndMargin (selectedSolution this b cb ctx) in
         let before := displayBoxOf ctx b in
         layoutUnitPlus
           (layoutUnitPlus
              (layoutUnitPlus
                 (layoutUnitPlus
                    (layoutUnitPlus
                       (layoutUnitPlus
                          (HorizontalEdges.left (WidthAndMargin.margin widthAndMargin))
                          (DisplayAccessors.borderLeft before))
                       (DisplayAccessors.value_or_0 (DisplayAccessors.paddingLeft before)))
                    (WidthAndMargin.width widthAndMargin))
                 (DisplayAccessors.value_or_0 (DisplayAccessors.paddingRight before)))
              (DisplayAccessors.borderRight before))
           (HorizontalEdges.right (WidthAndMargin.margin widthAndMargin)))
    ∧ Display.contentBoxWidth (displayBoxOf ctx' cb) = containingBlockWidthIn ctx cb.
Proof.
  intros Hcb Hne.
  eexists. split; [by apply computeOutOfFlowHorizontalGeometry_returns|].
  split.
  - unfold displayBoxOf at 1. by rewrite lookup_withDisplayBox.
  - unfold displayBoxOf at 1.
    rewrite lookup_withDisplayBox_ne by done. by rewrite lookup_ensured.
Qed.

End FlowProperties.

(** * The further properties on the samples *)

Lemma stored_width_is_clamped_witness :
  ∃ ctx' d,
    computeOutOfFlowHorizontalGeometry (LU := Sample.arith) (G := Sample.geometry)
      Sample.this 2%positive Sample.initialContext = Returns (tt, ctx')
    ∧ m_layoutToDisplayBox ctx' !! 2%positive = Some d
    ∧ Display.contentBoxWidth d = Z.max (Z.min 800 400) 600.
Proof.
  apply (stored_width_is_clamped (LU := Sample.arith) (G := Sample.geometry)
           Sample.this 2%positive 1%positive Sample.initialContext).
  reflexivity.
Defined.

(** Box 5 with max-width 400 in a containing block only 300 wide. *)
Lemma unconstrained_solution_kept_within_bounds_witness :
  let narrow := mkLayoutContext {[ 1%positive := (Sample.boxAt 0 0 300 600)%Z ]} 0%nat in
  ∃ ctx',
    computeOutOfFlowHorizontalGeometry (LU := Sample.arith) (G := Sample.geometry)
      Sample.this 5%positive narrow = Returns (tt, ctx')
    ∧ m_layoutToDisplayBox ctx' !! 5%positive
      = Some (Display.setContentBoxWidth 300 Sample.emptyBox).
Proof.
  intros narrow.
  apply (unconstrained_solution_kept_within_bounds
           (LU := Sample.arith) (G := Sample.geometry)
           Sample.this 5%positive 1%positive narrow).
  - reflexivity.
  - intros maxWidth [= <-]. vm_compute. discriminate.
  - intros minWidth Hnone. discriminate Hnone.
Defined.

Lemma horizontal_resolver_frame_witness :
  ∃ ctx' d,
    computeOutOfFlowHorizontalGeometry (LU := Sample.arith) (G := Sample.geometry)
      Sample.this 6%positive Sample.laidOutContext = Returns (tt, ctx')
    ∧ m_layoutToDisplayBox ctx' !! 6%positive = Some d
    ∧ Display.top d = 200%Z
    ∧ Display.contentBoxHeight d = 30%Z
    ∧ Display.verticalMargin d = VerticalEdges.mk 0 0
    ∧ Display.verticalNonCollapsedMargin d = VerticalEdges.mk 0 0
    ∧ Display.border d = Sample.noEdges
    ∧ Display.padding d = None
    ∧ (∀ b', b' ≠ 6%positive → b' ≠ 3%positive →
         m_layoutToDisplayBox ctx' !! b' = m_layoutToDisplayBox Sample.laidOutContext !! b')
    ∧ (3%positive ≠ 6%positive →
       m_layoutToDisplayBox ctx' !! 3%positive = Some (Sample.boxAt 1 2 50 50))
    ∧ m_formattingStates ctx' = 0%nat.
Proof.
  apply (horizontal_resolver_frame (LU := Sample.arith) (G := Sample.geometry)
           Sample.this 6%positive 3%positive Sample.laidOutContext).
  reflexivity.
Defined.

(** Box 2 with max-height 400 and min-height 600: the unconstrained height
    800 is capped to 400 and then raised to 600. *)
Lemma stored_height_is_clamped_witness :
  ∃ d,
    m_layoutToDisplayBox
      (Sample.stateAfter
         (computeOutOfFlowVerticalGeometry (LU := Sample.arith)
            (G := SampleBounds.geometry) (Build := Sample.debug)
            2%positive Sample.initialContext))
      !! 2%positive = Some d
    ∧ Display.contentBoxHeight d = Z.max (Z.min 800 400) 600.
Proof.
  apply (stored_height_is_clamped (LU := Sample.arith) (G := SampleBounds.geometry)
           (Build := Sample.debug) 2%positive Sample.initialContext).
  vm_compute. reflexivity.
Defined.

Lemma vertical_resolver_frame_witness :
  let after :=
    Sample.stateAfter
      (computeOutOfFlowVerticalGeometry (LU := Sample.arith) (G := Sample.geometry)
         (Build := Sample.debug) 6%positive Sample.laidOutContext) in
  ∃ d,
    m_layoutToDisplayBox after !! 6%positive = Some d
    ∧ Display.top d = 15%Z
    ∧ Display.left d = 100%Z
    ∧ Display.contentBoxWidth d = 30%Z
    ∧ Display.horizontalMargin d = HorizontalEdges.mk 0 0
    ∧ Display.horizontalNonComputedMargin d = HorizontalEdges.mk 0 0
    ∧ Display.border d = Sample.noEdges
    ∧ Display.padding d = None
    ∧ (∀ b', b' ≠ 6%positive →
         m_layoutToDisplayBox after !! b' = m_layoutToDisplayBox Sample.laidOutContext !! b')
    ∧ m_formattingStates after = 0%nat.
Proof.
  apply (vertical_resolver_frame (LU := Sample.arith) (G := Sample.geometry)
           (Build := Sample.debug) 6%positive Sample.laidOutContext).
  vm_compute. reflexivity.
Defined.

Lemma mapCoordinateToAncestor_composes_witness :
  ∃ halfway ctx1 mapped ctx2,
    mapCoordinateToAncestor (LU := Sample.arith) (G := Sample.geometry)
      (Build := Sample.debug) 2 (LayoutPoint.mk 7 9) 3%positive 2%positive
      Sample.laidOutContext = Returns (halfway, ctx1)
    ∧ mapCoordinateToAncestor (LU := Sample.arith) (G := Sample.geometry)
        (Build := Sample.debug) 2 halfway 2%positive 1%positive ctx1
      = Returns (mapped, ctx2)
    ∧ mapCoordinateToAncestor (LU := Sample.arith) (G := Sample.geometry)
        (Build := Sample.debug) 2 (LayoutPoint.mk 7 9) 3%positive 1%positive
        Sample.laidOutContext = Returns (mapped, ctx2).
Proof.
  apply (mapCoordinateToAncestor_composes (LU := Sample.arith) (G := Sample.geometry)
           (Build := Sample.debug) 2 (LayoutPoint.mk 7 9) 3%positive 2%positive 1%positive
           [3%positive] [2%positive] Sample.laidOutContext).
  - apply (chain_step (T := Sample.tree) _ 3%positive); [discriminate|].
    apply (chain_ancestor (T := Sample.tree)).
  - intros c Hc. apply list_elem_of_singleton in Hc as ->. discriminate.
  - apply (chain_step (T := Sample.tree) _ 2%positive); [discriminate|].
    apply (chain_ancestor (T := Sample.tree)).
  - simpl; lia.
Defined.

Lemma mapTopLeftToAncestor_agrees_with_mapBoxToAncestor_witness :
  mapTopLeftToAncestor (LU := Sample.arith) (G := Sample.geometry) (Build := Sample.debug)
    2 6%positive 1%positive Sample.laidOutContext
  = outcomeMap (fun r => (Display.topLeft (fst r), snd r))
      (mapBoxToAncestor (LU := Sample.arith) (G := Sample.geometry) (Build := Sample.debug)
         2 6%positive 1%positive Sample.laidOutContext).
Proof.
  apply (mapTopLeftToAncestor_agrees_with_mapBoxToAncestor
           (LU := Sample.arith) (G := Sample.geometry) (Build := Sample.debug)
           2 6%positive 1%positive Sample.laidOutContext).
  by exists 3%positive.
Defined.

Lemma returning_traversal_met_its_preconditions_witness :
  is_Some (containingBlock (BoxTree := Sample.tree) 5%positive)
  ∧ (assertionsEnabled (BuildConfiguration := Sample.debug) = true →
     establishesFormattingContext (BoxTree := Sample.tree) 5%positive = true).
Proof.
  apply (returning_traversal_met_its_preconditions
           (LU := Sample.arith) (G := Sample.geometry) (Build := Sample.debug)
           3 Sample.this 1%positive Sample.initialContext
           (Sample.stateAfter
              (layoutOutOfFlowDescendants (LU := Sample.arith) (G := Sample.geometry)
                 (Build := Sample.debug) 3 Sample.this 1%positive Sample.initialContext))).
  - right. reflexivity.
  - reflexivity.
  - reflexivity.
  - vm_compute. reflexivity.
  - change (5%positive ∈ [2; 5]%positive). set_solver.
Defined.

(** The validator passes on the balanced sample and stops on the other. *)
Lemma sample_validation :
  outcomeMap fst
    (validateGeometryConstraintsAfterLayout (LU := Sample.arith) (Q := SampleFlow.queries)
       (G := SampleFlow.geometry) (Build := Sample.debug)
       SampleFlow.this SampleFlow.balancedContext) = Returns tt
  ∧ validateGeometryConstraintsAfterLayout (LU := Sample.arith) (Q := SampleFlow.queries)
      (G := SampleFlow.geometry) (Build := Sample.debug)
      SampleFlow.this SampleFlow.unbalancedContext = AssertionFailed.
Proof. split; vm_compute; reflexivity. Qed.

Lemma validator_passes_iff_box_model_holds_witness :
  (∃ ctx',
     validateGeometryConstraintsAfterLayout (LU := Sample.arith) (Q := SampleFlow.queries)
       (G := SampleFlow.geometry) (Build := Sample.debug)
       SampleFlow.this SampleFlow.balancedContext = Returns (tt, ctx'))
  ↔ (isContainer (BoxTree := SampleFlow.tree) (m_root SampleFlow.this) = true →
     ∀ b, validated (Q := SampleFlow.queries) SampleFlow.this b →
          BoxModelHolds (LU := Sample.arith) (Q := SampleFlow.queries)
            (G := SampleFlow.geometry) SampleFlow.balancedContext b).
Proof.
  apply (validator_passes_iff_box_model_holds (LU := Sample.arith)
           (Q := SampleFlow.queries) (G := SampleFlow.geometry) (Build := Sample.debug)
           SampleFlow.this SampleFlow.balancedContext).
  reflexivity.
Defined.

Lemma validator_only_creates_records_witness :
  OnlyCreatesRecords (G := SampleFlow.geometry) SampleFlow.balancedContext
    (Sample.stateAfter
       (validateGeometryConstraintsAfterLayout (LU := Sample.arith)
          (Q := SampleFlow.queries) (G := SampleFlow.geometry) (Build := Sample.debug)
          SampleFlow.this SampleFlow.balancedContext)).
Proof.
  apply (validator_only_creates_records (LU := Sample.arith)
           (Q := SampleFlow.queries) (G := SampleFlow.geometry) (Build := Sample.debug)
           SampleFlow.this SampleFlow.balancedContext).
  vm_compute. reflexivity.
Defined.

Lemma validator_reads_what_horizontal_resolver_stored_witness :
  ∃ ctx',
    computeOutOfFlowHorizontalGeometry (LU := Sample.arith) (G := SampleFlow.geometry)
      SampleFlow.this 4%positive SampleFlow.balancedContext = Returns (tt, ctx')
    ∧ horizontalExtent (LU := Sample.arith)
        (displayBoxOf (G := SampleFlow.geometry) ctx' 4%positive) = 800%Z
    ∧ Display.contentBoxWidth (displayBoxOf (G := SampleFlow.geometry) ctx' 1%positive)
      = 800%Z.
Proof.
  apply (validator_reads_what_horizontal_resolver_stored
           (LU := Sample.arith) (G := SampleFlow.geometry)
           SampleFlow.this 4%positive 1%positive SampleFlow.balancedContext).
  - reflexivity.
  - discriminate.
Defined.

(** * Stopping and returning *)

Section StoppingProperties.
Context {LU : LayoutUnitOps} {T : BoxTree} {FS : Type}
        {G : Collaborators T FS} {Build : BuildConfiguration}.
Implicit Types (ctx : LayoutContext FS) (b cb : BoxId).

(** X17. In a build with assertions, a chain that ends at null without
    meeting the ancestor stops both mapping operations at an assertion:
    [mapCoordinateToAncestor] at [ASSERT_NOT_REACHED], [mapBoxToAncestor]
    there or at the descendant assertion before it. *)
Theorem unreachable_ancestor_stops_mapping_in_debug_build
    fuel ancestor b chainOfBox (position : Position) cb chain ctx :
  assertionsEnabled = true →
  ContainingBlockChain ancestor (containingBlock b) chainOfBox None →
  length chainOfBox ≤ fuel →
  ContainingBlockChain ancestor (Some cb) chain None →
  length chain ≤ fuel →
  mapBoxToAncestor fuel b ancestor ctx = AssertionFailed
  ∧ mapCoordinateToAncestor fuel position cb ancestor ctx = AssertionFailed.
Proof.
  intros Hdebug HchainOfBox HfuelOfBox Hchain Hfuel. split.
  - unfold mapBoxToAncestor, bind, ASSERT_NOT_REACHED, ASSERT. rewrite Hdebug.
    destruct (isDescendantOf b ancestor); [|reflexivity]. simpl.
    rewrite displayBoxForLayoutBox_ensures.
    destruct (walkToAncestor_chain _ _ _ _ HchainOfBox fuel
                (Display.topLeft (displayBoxOf ctx b)) (ensured b ctx) HfuelOfBox)
      as [ctx' ->].
    reflexivity.
  - by eapply unreachable_ancestor_stops_debug_build.
Qed.

(** X18. The traversal returns whenever the recursion budget covers the
    nesting depth of out-of-flow boxes below the box, every out-of-flow box
    has a containing block and establishes a formatting context, and
    Geometry never produces a collapsed margin: in every build, nothing else
    can stop it. *)
Theorem traversal_returns_when_preconditions_hold fuel this b ctx :
  (∀ c (o : BoxId), o ∈ outOfFlowDescendants c → is_Some (containingBlock o)) →
  (∀ c (o : BoxId), o ∈ outOfFlowDescendants c → establishesFormattingContext o = true) →
  (∀ ctx0 (o : BoxId) usedHeight,
     HeightAndMargin.collapsedMargin
       (VerticalGeometry.heightAndMargin (outOfFlowVerticalGeometry ctx0 o usedHeight))
     = None) →
  NestingAtMost fuel b →
  ∃ ctx', layoutOutOfFlowDescendants fuel this b ctx = Returns (tt, ctx').
Proof.
  intros HcontainingBlock Hestablishes Hnever Hnesting.
  by apply layoutOutOfFlowDescendants_returns.
Qed.

End StoppingProperties.

Lemma unreachable_ancestor_stops_mapping_in_debug_build_witness :
  mapBoxToAncestor (LU := Sample.arith) (G := Sample.geometry) (Build := Sample.debug)
    3 6%positive 5%positive Sample.laidOutContext = AssertionFailed
  ∧ mapCoordinateToAncestor (LU := Sample.arith) (G := Sample.geometry)
      (Build := Sample.debug)
      3 (LayoutPoint.mk 7 9) 3%positive 5%positive Sample.laidOutContext
    = AssertionFailed.
Proof.
  assert (Hchain : ContainingBlockChain (T := Sample.tree) 5%positive (Some 3%positive)
                     [3; 2; 1]%positive None).
  { apply (chain_step (T := Sample.tree) _ 3%positive); [discriminate|].
    apply (chain_step (T := Sample.tree) _ 2%positive); [discriminate|].
    apply (chain_step (T := Sample.tree) _ 1%positive); [discriminate|].
    apply (chain_null (T := Sample.tree)). }
  apply (unreachable_ancestor_stops_mapping_in_debug_build
           (LU := Sample.arith) (G := Sample.geometry) (Build := Sample.debug)
           3 5%positive 6%positive [3; 2; 1]%positive (LayoutPoint.mk 7 9) 3%positive
           [3; 2; 1]%positive Sample.laidOutContext).
  - reflexivity.
  - exact Hchain.
  - simpl; lia.
  - exact Hchain.
  - simpl; lia.
Defined.

Lemma sample_out_of_flow_boxes (c o : BoxId) :
  o ∈ outOfFlowDescendants (BoxTree := Sample.tree) c →
  o ∈ [2; 5; 3; 4; 8]%positive.
Proof.
  simpl. unfold Sample.outOfFlowOf.
  repeat case_decide; intros Ho; try (by apply elem_of_nil in Ho);
    repeat (apply elem_of_cons in Ho as [->|Ho]; [set_solver|]);
    by apply elem_of_nil in Ho.
Qed.

Lemma traversal_returns_when_preconditions_hold_witness :
  ∃ ctx',
    layoutOutOfFlowDescendants (LU := Sample.arith) (G := Sample.geometry)
      (Build := Sample.debug) 3 Sample.this 1%positive Sample.initialContext
    = Returns (tt, ctx').
Proof.
  apply (traversal_returns_when_preconditions_hold
           (LU := Sample.arith) (G := Sample.geometry) (Build := Sample.debug)
           3 Sample.this 1%positive Sample.initialContext).
  - intros c o Ho. apply sample_out_of_flow_boxes in Ho.
    repeat (apply elem_of_cons in Ho as [->|Ho]; [by eexists|]).
    by apply elem_of_nil in Ho.
  - intros c o Ho. apply sample_out_of_flow_boxes in Ho.
    repeat (apply elem_of_cons in Ho as [->|Ho]; [reflexivity|]).
    by apply elem_of_nil in Ho.
  - intros ctx0 o usedHeight. reflexivity.
  - intros o1 Ho1. change (o1 ∈ [2; 5]%positive) in Ho1.
    apply elem_of_cons in Ho1 as [->|Ho1];
      [|apply list_elem_of_singleton in Ho1 as ->; intros o2 Ho2; by apply elem_of_nil in Ho2].
    intros o2 Ho2. change (o2 ∈ [3; 4]%positive) in Ho2.
    apply elem_of_cons in Ho2 as [->|Ho2];
      [|apply list_elem_of_singleton in Ho2 as ->; intros o3 Ho3; by apply elem_of_nil in Ho3].
    intros o3 Ho3. change (o3 ∈ [8]%positive) in Ho3.
    apply list_elem_of_singleton in Ho3 as ->. reflexivity.
Defined.
